(** * Task priority scoring: a shallow embedding of [tasks/scoring.py]

    The development follows the layout of the Python module: the value
    model (Python numbers, field values, task records), [parse_date], the
    four component scorers, [calculate_priority_score],
    [get_score_explanation], [detect_circular_dependencies],
    [analyze_tasks], [get_suggestions] and [generate_suggestion_reason];
    then the definitions the statements need, and the properties.

    Modelling conventions.
    - A Python [float] is a finite rational, or one of [inf], [-inf],
      [nan].  Arithmetic on finite floats is exact: the rounding error of
      binary64 operations is not modelled.  Everything else about floats
      that the code observes is: comparisons with [nan] are false,
      [float(int)] raises [OverflowError] on integers outside the binary64
      range, [int(float)] raises on [nan] and [inf].
    - An exception is a value of [exn]; code that can raise returns
      [result].
    - A task is a dict read through [get]; each key the code reads is a
      field that is absent or holds any value, also [None] or a value of
      the wrong type.  Task ids, and the elements of a dependency list,
      are integers, as the source annotates them.
    - Library functions that are not part of the repository ([float] on a
      string, [datetime.strptime], [datetime.fromisoformat], the printing
      of a float, [date.today]) are parameters of the model, collected in
      [Env].
    - The interpreter's recursion limit is the fuel of [dfs]:
      [detect_with_fuel limit] is the search with room for [limit] nested
      calls, and [None] is its [RecursionError].
      [detect_circular_dependencies], [analyze_tasks] and
      [get_suggestions] are the functions on a stack that is deep enough
      for the graph. *)

From Stdlib Require Import ZArith QArith Qabs Qround Lqa Lia String Ascii List.
From stdpp Require Import gmap strings list sorting pretty.

Close Scope Q_scope.
Open Scope Z_scope.

(** ** Exceptions *)

Inductive exn : Type :=
| TypeError
| ValueError
| OverflowError.

Inductive result (A : Type) : Type :=
| Ok (a : A)
| Raise (e : exn).
Arguments Ok {A} a.
Arguments Raise {A} e.

#[global] Instance result_ret : MRet result := fun A a => Ok a.
#[global] Instance result_bind : MBind result := fun A B k r =>
  match r with
  | Ok a => k a
  | Raise e => Raise e
  end.

#[global] Instance result_fmap : FMap result := fun A B f r =>
  match r with
  | Ok a => Ok (f a)
  | Raise e => Raise e
  end.

(** [try: r except (TypeError, ValueError): d] *)
Definition try_except_type_value {A : Type} (r : result A) (d : A) : result A :=
  match r with
  | Ok a => Ok a
  | Raise TypeError => Ok d
  | Raise ValueError => Ok d
  | Raise e => Raise e
  end.

(** ** Python numbers *)

Inductive pyfloat : Type :=
| Fin (q : Q)
| PInf
| NInf
| NaN.

Inductive num : Type :=
| NInt (z : Z)
| NFloat (f : pyfloat).

Definition Qltb (a b : Q) : bool := negb (Qle_bool b a).

(** [a < b] and [a <= b] on floats: false as soon as one side is [nan]. *)
Definition fltb (a b : pyfloat) : bool :=
  match a, b with
  | NaN, _ | _, NaN => false
  | _, NInf => false
  | NInf, _ => true
  | PInf, _ => false
  | _, PInf => true
  | Fin x, Fin y => Qltb x y
  end.

Definition fleb (a b : pyfloat) : bool :=
  match a, b with
  | NaN, _ | _, NaN => false
  | NInf, _ => true
  | _, NInf => false
  | _, PInf => true
  | PInf, _ => false
  | Fin x, Fin y => Qle_bool x y
  end.

Definition fneg (a : pyfloat) : pyfloat :=
  match a with
  | Fin x => Fin (- x)%Q
  | PInf => NInf
  | NInf => PInf
  | NaN => NaN
  end.

Definition fadd (a b : pyfloat) : pyfloat :=
  match a, b with
  | NaN, _ | _, NaN => NaN
  | PInf, NInf | NInf, PInf => NaN
  | PInf, _ | _, PInf => PInf
  | NInf, _ | _, NInf => NInf
  | Fin x, Fin y => Fin (x + y)%Q
  end.

Definition fsub (a b : pyfloat) : pyfloat := fadd a (fneg b).

(** Sign of a rational, for the product with an infinity. *)
Definition finf_times (pos : bool) (x : Q) : pyfloat :=
  match (0 ?= x)%Q with
  | Eq => NaN
  | Lt => if pos then PInf else NInf
  | Gt => if pos then NInf else PInf
  end.

Definition fmul (a b : pyfloat) : pyfloat :=
  match a, b with
  | NaN, _ | _, NaN => NaN
  | Fin x, Fin y => Fin (x * y)%Q
  | PInf, Fin x | Fin x, PInf => finf_times true x
  | NInf, Fin x | Fin x, NInf => finf_times false x
  | PInf, PInf | NInf, NInf => PInf
  | PInf, NInf | NInf, PInf => NInf
  end.

(** The exact value of a number, as Python uses it when it compares an
    [int] with a [float] (the comparison is exact, the [int] is not
    rounded). *)
Definition num_val (n : num) : pyfloat :=
  match n with
  | NInt z => Fin (inject_Z z)
  | NFloat f => f
  end.

Definition num_ltb (a b : num) : bool := fltb (num_val a) (num_val b).
Definition num_leb (a b : num) : bool := fleb (num_val a) (num_val b).
Definition num_gtb (a b : num) : bool := num_ltb b a.
Definition num_geb (a b : num) : bool := num_leb b a.

(** Binary arithmetic: [int op int] stays an [int]; as soon as one operand
    is a [float] the other is converted.  Every [int] operand of a mixed
    operation in this program is a literal below 100, whose conversion is
    exact. *)
Definition num_sub (a b : num) : num :=
  match a, b with
  | NInt x, NInt y => NInt (x - y)
  | _, _ => NFloat (fsub (num_val a) (num_val b))
  end.

Definition num_mul (a b : num) : num :=
  match a, b with
  | NInt x, NInt y => NInt (x * y)
  | _, _ => NFloat (fmul (num_val a) (num_val b))
  end.

(** [max(a, b)] returns [b] when [b > a] and [a] otherwise; [min(a, b)]
    returns [b] when [b < a] and [a] otherwise.  These are the builtins'
    semantics; with a [nan] argument the first argument wins. *)
Definition py_max (a b : num) : num := if num_gtb b a then b else a.
Definition py_min (a b : num) : num := if num_ltb b a then b else a.

(** [float(z)] for an [int]: [OverflowError] when [z] rounds to a value
    outside binary64, i.e. when [|z| >= 2^1024 - 2^970]. *)
Definition float_int_bound : Z := 2 ^ 1024 - 2 ^ 970.

Definition float_of_int (z : Z) : result pyfloat :=
  if Z.abs z <? float_int_bound then Ok (Fin (inject_Z z)) else Raise OverflowError.

Definition float_of_num (n : num) : result pyfloat :=
  match n with
  | NInt z => float_of_int z
  | NFloat f => Ok f
  end.

(** Truncation of a rational towards zero. *)
Definition Qtrunc (q : Q) : Z := Z.quot (Qnum q) (Z.pos (Qden q)).

(** [int(x)] *)
Definition int_of_num (n : num) : result Z :=
  match n with
  | NInt z => Ok z
  | NFloat (Fin q) => Ok (Qtrunc q)
  | NFloat NaN => Raise ValueError
  | NFloat _ => Raise OverflowError
  end.

(** Round half to even, to an integer. *)
Definition Qround_half_even (q : Q) : Z :=
  let f := Qfloor q in
  let r := (q - inject_Z f)%Q in
  match (r ?= 1 # 2)%Q with
  | Lt => f
  | Gt => f + 1
  | Eq => if Z.even f then f else f + 1
  end.

(** [round(x, ndigits)] on a float, for [ndigits >= 0]: the nearest multiple
    of [10^-ndigits], ties to even; a non-finite float is returned as is. *)
Definition py_round (x : pyfloat) (ndigits : nat) : pyfloat :=
  match x with
  | Fin q =>
      let s := inject_Z (10 ^ Z.of_nat ndigits) in
      Fin (inject_Z (Qround_half_even (q * s)) / s)%Q
  | _ => x
  end.

(** ** Field values and task records *)

(** The values a field of a task record may hold.  Lists hold task ids,
    which are integers ([List[int]] in the source's annotations); of a
    dict only the keys are kept, the code never looks inside one. *)
Inductive pyval : Type :=
| PNone
| PBool (b : bool)
| PInt (z : Z)
| PFloat (f : pyfloat)
| PStr (s : string)
| PList (l : list Z)
| PDict (keys : list string)
| PDate (ordinal : Z)
| PDateTime (ordinal : Z) (microsecond : Z).

(** A task is a dict; each key the code reads is a field here, [None] when
    the key is absent.  [id] is an integer when present. *)
Record Task : Type := mkTask {
  id : option Z;
  title : option pyval;
  due_date : option pyval;
  estimated_hours : option pyval;
  importance : option pyval;
  dependencies : option pyval
}.

(** A node of the dependency graph: what [task.get('id')] yields, an
    integer or [None]. *)
Abbreviation node_t := (option Z).

(** The adjacency dict.  A Python dict iterates in insertion order and an
    assignment to an existing key keeps the key's place, so the dict is a
    list of bindings with at most one binding per key. *)
Abbreviation graph_t := (list (node_t * list Z)).

(** [task.get(key)] and [task.get(key, d)] *)
Definition get (field : option pyval) : pyval := default PNone field.
Definition get_default (field : option pyval) (d : pyval) : pyval := default d field.

Definition is_None (v : pyval) : bool :=
  match v with
  | PNone => true
  | _ => false
  end.

(** Truth value of an object. *)
Definition truthy (v : pyval) : bool :=
  match v with
  | PNone => false
  | PBool b => b
  | PInt z => negb (z =? 0)
  | PFloat (Fin q) => negb (Qeq_bool q 0)
  | PFloat _ => true
  | PStr s => negb (String.eqb s "")
  | PList l => negb (Nat.eqb (length l) 0)
  | PDict keys => negb (Nat.eqb (length keys) 0)
  | PDate _ | PDateTime _ _ => true
  end.

(** [a or b] *)
Definition py_or (a b : pyval) : pyval := if truthy a then a else b.

(** [x in l] for [x = task.get('id')] and a list of ids. *)
Definition id_in (x : node_t) (l : list Z) : bool :=
  match x with
  | Some z => bool_decide (z ∈ l)
  | None => false
  end.

(** The numeric reading of a value in a comparison with a number;
    [TypeError] for a value that does not compare with an [int]. *)
Definition num_of_pyval (v : pyval) : result num :=
  match v with
  | PBool b => Ok (NInt (if b then 1 else 0))
  | PInt z => Ok (NInt z)
  | PFloat f => Ok (NFloat f)
  | _ => Raise TypeError
  end.

(** [v >= n] and [v <= n] for an [int] literal [n]. *)
Definition py_ge_int (v : pyval) (n : Z) : result bool :=
  x ← num_of_pyval v; mret (num_geb x (NInt n)).
Definition py_le_int (v : pyval) (n : Z) : result bool :=
  x ← num_of_pyval v; mret (num_leb x (NInt n)).

(** ** The environment: library functions and the clock *)

Record Env : Type := mkEnv {
  (** [date.today()], as a day number *)
  today : Z;
  (** [float(s)] for a string: [None] stands for [ValueError] *)
  float_of_str : string → option pyfloat;
  (** [datetime.strptime(s, '%Y-%m-%d').date()]: [None] stands for
      [ValueError] *)
  strptime_ymd : string → option Z;
  (** [datetime.fromisoformat(s).date()]: [None] stands for [ValueError] *)
  fromisoformat_date : string → option Z;
  (** the text of a float in an f-string *)
  float_repr : pyfloat → string
}.

(** ** Module constants *)

Record Weights : Type := mkWeights {
  w_urgency : pyfloat;
  w_importance : pyfloat;
  w_effort : pyfloat;
  w_dependencies : pyfloat
}.

#[global] Instance Weights_inhabited : Inhabited Weights :=
  populate (mkWeights NaN NaN NaN NaN).

Definition STRATEGY_WEIGHTS : gmap string Weights :=
  <["smart_balance" := mkWeights (Fin (35 # 100)) (Fin (30 # 100)) (Fin (15 # 100)) (Fin (20 # 100))]>
  (<["quick_wins" := mkWeights (Fin (15 # 100)) (Fin (15 # 100)) (Fin (55 # 100)) (Fin (15 # 100))]>
  (<["high_impact" := mkWeights (Fin (15 # 100)) (Fin (60 # 100)) (Fin (10 # 100)) (Fin (15 # 100))]>
  (<["deadline_driven" := mkWeights (Fin (60 # 100)) (Fin (15 # 100)) (Fin (10 # 100)) (Fin (15 # 100))]>
   ∅))).

Record Defaults : Type := mkDefaults {
  d_importance : Z;
  d_estimated_hours : Z;
  d_dependencies : list Z
}.

Definition DEFAULTS : Defaults := mkDefaults 5 4 [].

(** ** Strings *)

(** [s.replace('Z', '+00:00')] *)
Fixpoint replace_Z (s : string) : string :=
  match s with
  | EmptyString => EmptyString
  | String c s' =>
      if Ascii.eqb c "Z"%char then ("+00:00" ++ replace_Z s')%string
      else String c (replace_Z s')
  end.

(** [sep.join(l)] *)
Definition join (sep : string) (l : list string) : string := String.concat sep l.

(** [sub in s] *)
Fixpoint contains (sub s : string) : bool :=
  if String.prefix sub s then true
  else match s with
       | EmptyString => false
       | String _ s' => contains sub s'
       end.

Definition ascii_upper (c : ascii) : ascii :=
  let n := nat_of_ascii c in
  if (Nat.leb 97 n && Nat.leb n 122)%bool then ascii_of_nat (n - 32)%nat else c.

Definition ascii_lower (c : ascii) : ascii :=
  let n := nat_of_ascii c in
  if (Nat.leb 65 n && Nat.leb n 90)%bool then ascii_of_nat (n + 32)%nat else c.

Fixpoint string_map (f : ascii → ascii) (s : string) : string :=
  match s with
  | EmptyString => EmptyString
  | String c s' => String (f c) (string_map f s')
  end.

(** [s.capitalize()] on ASCII text: first character upper case, the rest
    lower case. *)
Definition capitalize (s : string) : string :=
  match s with
  | EmptyString => EmptyString
  | String c s' => String (ascii_upper c) (string_map ascii_lower s')
  end.

(** ** Lists *)

(** [l.index(x)], for [x] in [l] *)
Fixpoint index_of {A : Type} `{EqDecision A} (x : A) (l : list A) : nat :=
  match l with
  | [] => O
  | y :: l' => if decide (x = y) then O else S (index_of x l')
  end.

(** [l[:count]] *)
Definition slice_to {A : Type} (count : Z) (l : list A) : list A :=
  if 0 <=? count then take (Z.to_nat count) l
  else take (Z.to_nat (Z.of_nat (length l) + count)) l.

(** [enumerate(l, start)] *)
Fixpoint enumerate {A : Type} (start : Z) (l : list A) : list (Z * A) :=
  match l with
  | [] => []
  | x :: l' => (start, x) :: enumerate (start + 1) l'
  end.

(** [l.sort(key=key, reverse=True)]: the builtin sort is stable, and with
    [reverse=True] elements with equal keys keep their original order.  An
    element moves behind exactly the elements whose key is greater. *)
Fixpoint insert_desc {A : Type} (key : A → pyfloat) (x : A) (l : list A) : list A :=
  match l with
  | [] => [x]
  | y :: l' => if fltb (key x) (key y) then y :: insert_desc key x l' else x :: l
  end.

Definition sort_desc {A : Type} (key : A → pyfloat) (l : list A) : list A :=
  foldr (insert_desc key) [] l.

Section Scoring.

Context (env : Env).

(** ** [parse_date] *)

Definition parse_date (date_value : pyval) : option Z :=
  match date_value with
  | PNone => None
  | PDate d => Some d
  | PDateTime d _ => Some d
  | PStr s =>
      match strptime_ymd env s with
      | Some d => Some d
      | None =>
          match fromisoformat_date env (replace_Z s) with
          | Some d => Some d
          | None => None
          end
      end
  | _ => None
  end.

(** ** [float(x)] on a field value *)

Definition py_float (v : pyval) : result pyfloat :=
  match v with
  | PBool b => Ok (Fin (if b then 1 else 0)%Q)
  | PInt z => float_of_int z
  | PFloat f => Ok f
  | PStr s =>
      match float_of_str env s with
      | Some f => Ok f
      | None => Raise ValueError
      end
  | _ => Raise TypeError
  end.

(** [f"{x}"] for a number *)
Definition num_repr (n : num) : string :=
  match n with
  | NInt z => pretty z
  | NFloat f => float_repr env f
  end.

(** ** [calculate_urgency_score] *)

Definition calculate_urgency_score (task : Task) : result (pyfloat * string) :=
  match parse_date (get (due_date task)) with
  | None => Ok (Fin 50, "No due date set (neutral urgency)")
  | Some due =>
      let days_until_due := due - today env in
      if days_until_due <? 0 then
        let overdue_days := Z.abs days_until_due in
        let score := Fin 100 in
        Ok (score, "OVERDUE by " +:+ pretty overdue_days +:+ " day(s)!")
      else if days_until_due =? 0 then
        Ok (Fin 95, "Due TODAY!")
      else if days_until_due <=? 3 then
        let score := 94 - (days_until_due - 1) * 5 in
        s ← float_of_int score;
        mret (s, "Due in " +:+ pretty days_until_due +:+ " day(s) - High urgency")
      else if days_until_due <=? 7 then
        let score := 79 - (days_until_due - 4) * 7 in
        s ← float_of_int score;
        mret (s, "Due in " +:+ pretty days_until_due +:+ " day(s) - Medium urgency")
      else if days_until_due <=? 14 then
        let score := 49 - (days_until_due - 8) * 3 in
        s ← float_of_int score;
        mret (s, "Due in " +:+ pretty days_until_due +:+ " day(s) - Low urgency")
      else
        let score := Z.max 10 (29 - (days_until_due - 15)) in
        s ← float_of_int score;
        mret (s, "Due in " +:+ pretty days_until_due +:+ " day(s) - Not urgent")
  end.

(** ** [calculate_importance_score] *)

(** The rating after defaulting, coercion and clamping: lines 139-149. *)
Definition effective_importance (task : Task) : result num :=
  let importance := get (importance task) in
  let importance :=
    if is_None importance then PInt (d_importance DEFAULTS) else importance in
  try_except_type_value
    (importance ← py_float importance;
     mret (py_max (NInt 1) (py_min (NInt 10) (NFloat importance))))
    (NInt (d_importance DEFAULTS)).

Definition calculate_importance_score (task : Task) : result (pyfloat * string) :=
  importance ← effective_importance task;
  let score := num_mul importance (NInt 10) in
  let level :=
    if num_geb importance (NInt 8) then "Critical"
    else if num_geb importance (NInt 6) then "High"
    else if num_geb importance (NInt 4) then "Medium"
    else "Low" in
  s ← float_of_num score;
  i ← int_of_num importance;
  mret (s, "Importance: " +:+ level +:+ " (" +:+ pretty i +:+ "/10)").

(** ** [calculate_effort_score] *)

(** The hours after defaulting, coercion and the 30-minute floor: lines
    179-189. *)
Definition effective_hours (task : Task) : result num :=
  let hours := get (estimated_hours task) in
  let hours :=
    if is_None hours then PInt (d_estimated_hours DEFAULTS) else hours in
  try_except_type_value
    (hours ← py_float hours;
     mret (py_max (NFloat (Fin (1 # 2))) (NFloat hours)))
    (NInt (d_estimated_hours DEFAULTS)).

(** The piecewise curve of lines 191-208: score and category. *)
Definition effort_curve (hours : num) : num * string :=
  if num_leb hours (NInt 1) then
    (NFloat (Fin 100), "Quick task")
  else if num_leb hours (NInt 2) then
    (NFloat (Fin 90), "Quick win")
  else if num_leb hours (NInt 4) then
    (num_sub (NInt 80) (num_mul (num_sub hours (NInt 2)) (NInt 5)), "Half-day task")
  else if num_leb hours (NInt 8) then
    (num_sub (NInt 70) (num_mul (num_sub hours (NInt 4)) (NFloat (Fin (15 # 2)))),
     "Full-day task")
  else if num_leb hours (NInt 16) then
    (num_sub (NInt 40) (num_mul (num_sub hours (NInt 8)) (NFloat (Fin (5 # 2)))),
     "Multi-day task")
  else
    (py_max (NInt 10)
       (num_sub (NInt 20) (num_mul (num_sub hours (NInt 16)) (NFloat (Fin (1 # 2))))),
     "Major effort").

Definition calculate_effort_score (task : Task) : result (pyfloat * string) :=
  hours ← effective_hours task;
  let '(score, category) := effort_curve hours in
  s ← float_of_num score;
  mret (s, category +:+ " (" +:+ num_repr hours +:+ "h estimated)").

(** ** [calculate_dependency_score] *)

(** The dependency list the scorer works with: lines 228-231. *)
Definition task_dependencies (task : Task) : list Z :=
  match py_or (get (dependencies task)) (PList (d_dependencies DEFAULTS)) with
  | PList l => l
  | _ => []
  end.

(** The counting loop of lines 234-238. *)
Definition count_blocking (task_id : node_t) (all_tasks : list Task) : Z :=
  fold_left
    (fun blocking_count other_task =>
       let other_deps := py_or (get (dependencies other_task)) (PList []) in
       match other_deps with
       | PList l => if id_in task_id l then blocking_count + 1 else blocking_count
       | _ => blocking_count
       end)
    all_tasks 0.

Definition calculate_dependency_score (task : Task) (all_tasks : list Task)
  : pyfloat * string :=
  let task_id := id task in
  let task_dependencies := task_dependencies task in
  let blocking_count := count_blocking task_id all_tasks in
  let has_unmet_deps := (0 <? Z.of_nat (length task_dependencies)) in
  if has_unmet_deps then
    (Fin 20,
     "Blocked by " +:+ pretty (Z.of_nat (length task_dependencies)) +:+ " other task(s)")
  else if 3 <=? blocking_count then
    (Fin 100, "Blocks " +:+ pretty blocking_count +:+ " tasks - Critical path!")
  else if blocking_count =? 2 then
    (Fin 80, "Blocks " +:+ pretty blocking_count +:+ " tasks")
  else if blocking_count =? 1 then
    (Fin 60, "Blocks " +:+ pretty blocking_count +:+ " task")
  else
    (Fin 40, "Independent task").

(** ** [calculate_priority_score] *)

Definition strategy_weights (strategy : string) : Weights :=
  default (STRATEGY_WEIGHTS !!! "smart_balance") (STRATEGY_WEIGHTS !! strategy).

Definition calculate_priority_score
    (task : Task) (all_tasks : option (list Task)) (strategy : string)
  : result pyfloat :=
  let all_tasks := default [] all_tasks in
  let weights := strategy_weights strategy in
  '(urgency_score, _) ← calculate_urgency_score task;
  '(importance_score, _) ← calculate_importance_score task;
  '(effort_score, _) ← calculate_effort_score task;
  let '(dependency_score, _) := calculate_dependency_score task all_tasks in
  let total_score :=
    fadd (fadd (fadd (fmul urgency_score (w_urgency weights))
                     (fmul importance_score (w_importance weights)))
               (fmul effort_score (w_effort weights)))
         (fmul dependency_score (w_dependencies weights)) in
  mret (py_round total_score 2).

(** ** [get_score_explanation] *)

Definition get_score_explanation
    (task : Task) (all_tasks : option (list Task)) (strategy : string)
  : result string :=
  let all_tasks := default [] all_tasks in
  let weights := strategy_weights strategy in
  '(urgency_score, urgency_exp) ← calculate_urgency_score task;
  '(importance_score, importance_exp) ← calculate_importance_score task;
  '(effort_score, effort_exp) ← calculate_effort_score task;
  let '(dependency_score, dependency_exp) := calculate_dependency_score task all_tasks in
  let factors :=
    [ ("Urgency", urgency_score, urgency_exp, w_urgency weights);
      ("Importance", importance_score, importance_exp, w_importance weights);
      ("Effort", effort_score, effort_exp, w_effort weights);
      ("Dependencies", dependency_score, dependency_exp, w_dependencies weights)  ] in
  let factors := sort_desc (fun x => x.2) factors in
  let parts :=
    map (fun '(name, score, exp, weight) =>
           let contribution := py_round (fmul score weight) 1 in
           name +:+ ": " +:+ exp +:+ " (+" +:+ float_repr env contribution +:+ ")")
        factors in
  mret (join " | " parts).

(** ** [detect_circular_dependencies] *)


(** [graph[k] = v] *)
Fixpoint dict_set (k : node_t) (v : list Z) (graph : graph_t) : graph_t :=
  match graph with
  | [] => [(k, v)]
  | (k', v') :: graph' =>
      if decide (k = k') then (k, v) :: graph' else (k', v') :: dict_set k v graph'
  end.

(** [graph.get(k, [])] *)
Fixpoint dict_get (k : node_t) (graph : graph_t) : list Z :=
  match graph with
  | [] => []
  | (k', v') :: graph' => if decide (k = k') then v' else dict_get k graph'
  end.

(** [k in graph] *)
Definition dict_mem (k : node_t) (graph : graph_t) : bool :=
  bool_decide (k ∈ map fst graph).

(** Lines 360-366. *)
Definition build_graph (tasks : list Task) : graph_t :=
  fold_left
    (fun graph task =>
       let task_id := id task in
       let deps := py_or (get (dependencies task)) (PList []) in
       let deps := match deps with PList l => l | _ => [] end in
       dict_set task_id deps graph)
    tasks [].

(** The three mutable objects the nested function [dfs] closes over. *)
Record dfs_state : Type := mkState {
  cycles : list (list node_t);
  visited : gset node_t;
  rec_stack : gset node_t
}.

(** A [for] loop whose body may run out of fuel. *)
Fixpoint for_each {A S : Type} (body : S → A → option S) (l : list A) (st : S)
  : option S :=
  match l with
  | [] => Some st
  | x :: l' => st' ← body st x; for_each body l' st'
  end.

(** The nested function [dfs], lines 372-393.  The recursion of the source
    is not structural; [fuel] bounds its depth and [None] means that the
    bound was too small ([dfs_enough_fuel] shows that the bound
    [detect_circular_dependencies] uses never is).  The interpreter bounds
    the depth too: each nested call takes a frame, and with room for
    [fuel] frames [None] is the [RecursionError] it raises.  [rec_stack.remove]
    cannot fail: the node was added by the same call and no call removes
    another call's node. *)
Fixpoint dfs (fuel : nat) (graph : graph_t) (node : node_t) (path : list node_t)
    (st : dfs_state) : option dfs_state :=
  match fuel with
  | O => None
  | S fuel' =>
      if decide (node ∈ rec_stack st) then
        if decide (node ∈ path) then
          let cycle_start := index_of node path in
          let cycle := drop cycle_start path ++ [node] in
          Some (mkState (cycles st ++ [cycle]) (visited st) (rec_stack st))
        else Some st
      else if decide (node ∈ visited st) then Some st
      else
        let st := mkState (cycles st) ({[node]} ∪ visited st) ({[node]} ∪ rec_stack st) in
        let path := path ++ [node] in
        st ← for_each
               (fun st neighbor =>
                  if dict_mem (Some neighbor) graph
                  then dfs fuel' graph (Some neighbor) path st
                  else Some st)
               (dict_get node graph) st;
        Some (mkState (cycles st) (visited st) (rec_stack st ∖ {[node]}))
  end.

(** Lines 368-400 with a given recursion bound: the call with room for
    [fuel] nested calls of [dfs], [None] standing for [RecursionError]. *)
Definition detect_with_fuel (fuel : nat) (tasks : list Task)
  : option (list (list node_t)) :=
  let graph := build_graph tasks in
  st ← for_each
         (fun st task_id =>
            if decide (task_id ∉ visited st) then dfs fuel graph task_id [] st
            else Some st)
         (map fst graph) (mkState [] ∅ ∅);
  Some (cycles st).

(** A chain of nested [dfs] calls visits a new node of the graph at each
    level but the last, so it is never longer than the number of nodes
    plus one.  This is the function on a stack with that much room; what
    it does with less is [detect_with_fuel]. *)
Definition detect_circular_dependencies (tasks : list Task) : list (list node_t) :=
  default [] (detect_with_fuel (S (length (build_graph tasks))) tasks).

(** ** [analyze_tasks] *)

(** A scored task: the copy of the input dict with the three keys the
    analysis sets. *)
Record ScoredTask : Type := mkScored {
  s_task : Task;
  s_priority_score : pyfloat;
  s_explanation : string;
  s_priority_level : string
}.

Record Analysis : Type := mkAnalysis {
  a_tasks : list ScoredTask;
  a_circular_dependencies : list (list node_t);
  a_strategy_used : string;
  a_total_tasks : Z
}.

(** Lines 432-438. *)
Definition level_of (score : pyfloat) : string :=
  if num_geb (NFloat score) (NInt 70) then "high"
  else if num_geb (NFloat score) (NInt 40) then "medium"
  else "low".

(** The body of the loop of lines 426-440. *)
Definition score_task (tasks : list Task) (strategy : string) (task : Task)
  : result ScoredTask :=
  priority_score ← calculate_priority_score task (Some tasks) strategy;
  explanation ← get_score_explanation task (Some tasks) strategy;
  let score := priority_score in
  mret (mkScored task priority_score explanation (level_of score)).

Definition analyze_tasks (tasks : list Task) (strategy : string) : result Analysis :=
  let strategy :=
    if decide (strategy ∉ dom STRATEGY_WEIGHTS) then "smart_balance" else strategy in
  let circular_deps := detect_circular_dependencies tasks in
  scored_tasks ← mapM (score_task tasks strategy) tasks;
  let scored_tasks := sort_desc s_priority_score scored_tasks in
  mret (mkAnalysis scored_tasks circular_deps strategy (Z.of_nat (length tasks))).

(** ** [generate_suggestion_reason] and [get_suggestions] *)

Definition generate_suggestion_reason (task : ScoredTask) (rank : Z) : result string :=
  let score := s_priority_score task in
  let explanation := s_explanation task in
  let due_date := parse_date (get (due_date (s_task task))) in
  let reasons : list string := [] in
  let reasons :=
    match due_date with
    | Some due =>
        let days_until := due - today env in
        if days_until <? 0 then
          reasons ++ ["overdue by " +:+ pretty (Z.abs days_until) +:+ " day(s)"]
        else if days_until =? 0 then reasons ++ ["due today"]
        else if days_until <=? 3 then
          reasons ++ ["due in " +:+ pretty days_until +:+ " day(s)"]
        else reasons
    | None => reasons
    end in
  let importance := get_default (importance (s_task task)) (PInt 5) in
  py_ge_int importance 8 ≫= λ important : bool,
  let reasons :=
    if important then reasons ++ ["marked as highly important"] else reasons in
  let hours := get_default (estimated_hours (s_task task)) (PInt 4) in
  py_le_int hours 2 ≫= λ quick : bool,
  let reasons :=
    if quick then reasons ++ ["a quick win you can complete fast"] else reasons in
  let reasons :=
    if contains "Blocks" explanation
    then reasons ++ ["blocking other tasks from starting"] else reasons in
  match reasons with
  | _ :: _ =>
      let reason_text := join ", " reasons in
      mret ("#" +:+ pretty rank +:+ " Priority (Score: " +:+ float_repr env score
            +:+ "): " +:+ capitalize reason_text +:+ ".")
  | [] =>
      mret ("#" +:+ pretty rank +:+ " Priority (Score: " +:+ float_repr env score
            +:+ "): Good balance of urgency, importance, and effort.")
  end.

Record Suggestion : Type := mkSuggestion {
  sg_rank : Z;
  sg_task : ScoredTask;
  sg_reason : string
}.

Definition get_suggestions (tasks : list Task) (strategy : string) (count : Z)
  : result (list Suggestion) :=
  analysis ← analyze_tasks tasks strategy;
  let top_tasks := slice_to count (a_tasks analysis) in
  mapM (fun '(i, task) =>
          reason ← generate_suggestion_reason task i;
          mret (mkSuggestion i task reason))
       (enumerate 1 top_tasks).

End Scoring.

(** ** A sample environment

    An instance of [Env] for the worked examples: plain decimal numbers,
    ISO calendar dates, proleptic Gregorian day numbers as
    [date.toordinal] counts them. *)

Definition digit_of (c : ascii) : option Z :=
  let n := Z.of_nat (nat_of_ascii c) in
  if (48 <=? n) && (n <=? 57) then Some (n - 48) else None.

Fixpoint digits_acc (s : string) (acc : Z) : option Z :=
  match s with
  | EmptyString => Some acc
  | String c s' =>
      match digit_of c with
      | Some d => digits_acc s' (10 * acc + d)
      | None => None
      end
  end.

(** A non-empty string of decimal digits. *)
Definition digits (s : string) : option Z :=
  match s with
  | EmptyString => None
  | _ => digits_acc s 0
  end.

Fixpoint split_at_dot (s : string) : string * option string :=
  match s with
  | EmptyString => (EmptyString, None)
  | String c s' =>
      if Ascii.eqb c "."%char then (EmptyString, Some s')
      else let '(a, b) := split_at_dot s' in (String c a, b)
  end.

Definition unsigned_decimal (s : string) : option Q :=
  match split_at_dot s with
  | (a, None) => z ← digits a; Some (inject_Z z)
  | (a, Some b) =>
      z ← digits a;
      f ← digits b;
      Some (inject_Z z + inject_Z f / inject_Z (10 ^ Z.of_nat (String.length b)))%Q
  end.

Definition ex_float_of_str (s : string) : option pyfloat :=
  match s with
  | String "-" s' => q ← unsigned_decimal s'; Some (Fin (- q)%Q)
  | String "+" s' => q ← unsigned_decimal s'; Some (Fin q)
  | _ => q ← unsigned_decimal s; Some (Fin q)
  end.

Definition is_leap (y : Z) : bool :=
  ((y mod 4 =? 0) && negb (y mod 100 =? 0)) || (y mod 400 =? 0).

Definition days_in_month (y m : Z) : Z :=
  if m =? 2 then (if is_leap y then 29 else 28)
  else if (m =? 4) || (m =? 6) || (m =? 9) || (m =? 11) then 30
  else 31.

Definition days_before_month (y m : Z) : Z :=
  fold_left (fun acc k => acc + days_in_month y (Z.of_nat k)) (seq 1 (Z.to_nat m - 1)) 0.

(** [date(y, m, d).toordinal()] *)
Definition ordinal_of_ymd (y m d : Z) : Z :=
  let y' := y - 1 in
  y' * 365 + y' / 4 - y' / 100 + y' / 400 + days_before_month y m + d.

(** The first ten characters, read as [YYYY-MM-DD]. *)
Definition iso_date_prefix (s : string) : option Z :=
  y ← digits (String.substring 0 4 s);
  m ← digits (String.substring 5 2 s);
  d ← digits (String.substring 8 2 s);
  if (String.eqb (String.substring 4 1 s) "-")
     && (String.eqb (String.substring 7 1 s) "-")
     && (1 <=? y) && (1 <=? m) && (m <=? 12) && (1 <=? d) && (d <=? days_in_month y m)
  then Some (ordinal_of_ymd y m d) else None.

Definition ex_strptime_ymd (s : string) : option Z :=
  if Nat.eqb (String.length s) 10 then iso_date_prefix s else None.

Definition ex_fromisoformat_date (s : string) : option Z :=
  if Nat.eqb (String.length s) 10 then iso_date_prefix s
  else if String.eqb (String.substring 10 1 s) "T" then iso_date_prefix s
  else None.

(** The digits of [n / 10^k] after the point, trailing zeros dropped, at
    least one digit. *)
Fixpoint fraction_digits (k : nat) (n : Z) : string :=
  match k with
  | O => "0"
  | S k' =>
      let p := 10 ^ Z.of_nat k' in
      let d := n / p in
      let r := n mod p in
      if r =? 0 then pretty d else pretty d +:+ fraction_digits k' r
  end.

Definition ex_float_repr (f : pyfloat) : string :=
  match f with
  | Fin q =>
      let a := Qabs q in
      let i := Qfloor a in
      let n := Qfloor ((a - inject_Z i) * inject_Z (10 ^ 6))%Q in
      (if Qltb q 0 then "-" else "") +:+ pretty i +:+ "." +:+ fraction_digits 6 n
  | PInf => "inf"
  | NInf => "-inf"
  | NaN => "nan"
  end.

Definition ex_env : Env :=
  mkEnv (ordinal_of_ymd 2025 6 15) ex_float_of_str ex_strptime_ymd
        ex_fromisoformat_date ex_float_repr.

(** A task with every field present. *)
Definition full_task (i : Z) (due : pyval) (hours imp : pyval) (deps : list Z) : Task :=
  mkTask (Some i) (Some (PStr "task")) (Some due) (Some hours) (Some imp)
         (Some (PList deps)).

(** A task with only a title. *)
Definition minimal_task : Task :=
  mkTask (Some 1) (Some (PStr "Minimal task")) None None None None.

(** * Specification-level definitions *)

(** Order and range of floats, as propositions. *)
Definition fle (a b : pyfloat) : Prop := fleb a b = true.

Definition in_range (lo hi : Q) (f : pyfloat) : Prop :=
  match f with
  | Fin q => (lo <= q <= hi)%Q
  | _ => False
  end.

(** [x == y] on floats. *)
Definition feqb (a b : pyfloat) : bool :=
  match a, b with
  | Fin x, Fin y => Qeq_bool x y
  | PInf, PInf | NInf, NInf => true
  | _, _ => false
  end.

(** A call that returns a value satisfying [P], or raises [OverflowError];
    no other exception. *)
Definition ok_or_overflow {A : Type} (P : A → Prop) (r : result A) : Prop :=
  match r with
  | Ok a => P a
  | Raise e => e = OverflowError
  end.

(** Days until due, [None] when the due date is absent or unparsable. *)
Definition days_until_due (env : Env) (task : Task) : option Z :=
  (fun due => due - today env) <$> parse_date env (get (due_date task)).

(** The urgency table of the specification, row by row. *)
Definition urgency_table (days : option Z) : Z :=
  match days with
  | None => 50
  | Some d =>
      if d <? 0 then 100
      else if d =? 0 then 95
      else if (1 <=? d) && (d <=? 3) then 94 - (d - 1) * 5
      else if (4 <=? d) && (d <=? 7) then 79 - (d - 4) * 7
      else if (8 <=? d) && (d <=? 14) then 49 - (d - 8) * 3
      else Z.max 10 (29 - (d - 15))
  end.

(** [other] lists [x] among its dependencies. *)
Definition depends_on (other : Task) (x : node_t) : bool :=
  match get (dependencies other) with
  | PList l => id_in x l
  | _ => false
  end.

(** The number of tasks of the set whose dependency list contains the id
    of [task]. *)
Definition blocking_count (task : Task) (all_tasks : list Task) : nat :=
  length (filter (fun other => depends_on other (id task) = true) all_tasks).

(** The dependency table of the specification for a task that lists no
    dependency. *)
Definition dependency_table (blocking : nat) : Q :=
  match blocking with
  | 0%nat => 40
  | 1%nat => 60
  | 2%nat => 80
  | _ => 100
  end.

(** The values the rating can take after lines 139-149: the bounds and the
    default as [int]s, or a float strictly between the bounds. *)
Definition clamped_importance (n : num) : Prop :=
  n = NInt 1 ∨ n = NInt 10 ∨ n = NInt 5 ∨ ∃ q, n = NFloat (Fin q) ∧ (1 < q < 10)%Q.

(** The values the hours can take after lines 179-189: the default as an
    [int], or a float that is at least 0.5, possibly [inf]. *)
Definition floored_hours (h : num) : Prop :=
  h = NInt 4 ∨ h = NFloat PInf ∨ ∃ q, h = NFloat (Fin q) ∧ (1 # 2 <= q)%Q.

(** The score of the curve, as the float the scorer returns. *)
Definition effort_value (h : num) : pyfloat := num_val (effort_curve h).1.

(** The preset an unknown strategy name falls back to. *)
Definition smart_balance : Weights :=
  mkWeights (Fin (35 # 100)) (Fin (30 # 100)) (Fin (15 # 100)) (Fin (20 # 100)).

(** The four weights are non-negative and sum to one. *)
Definition convex (w : Weights) : Prop :=
  ∃ a b c d : Q,
    w = mkWeights (Fin a) (Fin b) (Fin c) (Fin d)
    ∧ (0 <= a ∧ 0 <= b ∧ 0 <= c ∧ 0 <= d ∧ a + b + c + d == 1)%Q.

(** The value is not an integer beyond the range of a float. *)
Definition in_float_range (v : pyval) : Prop :=
  ∀ z, v = PInt z → Z.abs z < float_int_bound.

(** Strict order of floats, as a proposition. *)
Definition flt (a b : pyfloat) : Prop := fltb a b = true.

(** Neither an infinity nor [nan]. *)
Definition is_finite (f : pyfloat) : Prop :=
  match f with
  | Fin _ => True
  | _ => False
  end.

(** [a] may stand before [b]: its key is not smaller. *)
Definition desc {A : Type} (key : A → pyfloat) (a b : A) : Prop := fle (key b) (key a).

(** The scored record of [task] within [tasks] under [strategy]. *)
Definition scored_for (env : Env) (tasks : list Task) (strategy : string)
    (task : Task) (s : ScoredTask) : Prop :=
  s_task s = task
  ∧ calculate_priority_score env task (Some tasks) strategy = Ok (s_priority_score s)
  ∧ get_score_explanation env task (Some tasks) strategy = Ok (s_explanation s).

(** The priority tiers of the specification. *)
Definition tier_ok (s : ScoredTask) : Prop :=
  (s_priority_level s = "high" ↔ fle (Fin 70) (s_priority_score s))
  ∧ (s_priority_level s = "medium"
     ↔ fle (Fin 40) (s_priority_score s) ∧ flt (s_priority_score s) (Fin 70))
  ∧ (s_priority_level s = "low"
     ↔ ¬ fle (Fin 70) (s_priority_score s)
       ∧ ¬ (fle (Fin 40) (s_priority_score s) ∧ flt (s_priority_score s) (Fin 70))).

(** The dependency list the graph records for a task, lines 363-365. *)
Definition graph_deps (task : Task) : list Z :=
  match py_or (get (dependencies task)) (PList []) with
  | PList l => l
  | _ => []
  end.

(** The body of the loop that fills the adjacency dict, lines 361-366. *)
Definition graph_step (graph : graph_t) (task : Task) : graph_t :=
  dict_set (id task) (graph_deps task) graph.

(** The body of the loop over the neighbours, lines 389-391. *)
Definition explore (graph : graph_t) (fuel : nat) (path : list node_t)
    (st : dfs_state) (neighbor : Z) : option dfs_state :=
  if dict_mem (Some neighbor) graph
  then dfs fuel graph (Some neighbor) path st
  else Some st.

(** What a call may change: it leaves the recursion stack as it found it,
    only adds to the visited set and only appends to the cycle list. *)
Definition extends (st st' : dfs_state) : Prop :=
  rec_stack st' = rec_stack st
  ∧ visited st ⊆ visited st'
  ∧ ∃ cs, cycles st' = cycles st ++ cs.


(** The nodes of the graph, as a set. *)
Definition graph_keys (graph : graph_t) : gset node_t := list_to_set (map fst graph).

(** The body of the loop over the nodes, lines 396-398. *)
Definition start (graph : graph_t) (fuel : nat) (st : dfs_state) (task_id : node_t)
  : option dfs_state :=
  if decide (task_id ∉ visited st) then dfs fuel graph task_id [] st else Some st.

(** ** Dependency paths *)

(** [b] is a dependency of [a] that the search follows: it is listed in
    the entry of [a] and is itself a key of the graph. *)
Definition edge (graph : graph_t) (a b : node_t) : Prop :=
  ∃ z, b = Some z ∧ z ∈ dict_get a graph ∧ Some z ∈ map fst graph.

(** Each node of the list depends on the next. *)
Fixpoint chain (graph : graph_t) (l : list node_t) : Prop :=
  match l with
  | a :: l' =>
      match l' with
      | b :: _ => edge graph a b ∧ chain graph l'
      | [] => True
      end
  | [] => True
  end.


(** A closed chain that passes through no node twice. *)
Definition simple_cycle (graph : graph_t) (c : list node_t) : Prop :=
  ∃ a mid, c = a :: mid ++ [a] ∧ chain graph c ∧ NoDup (a :: mid).




(** ** Comparing two scorer results *)

(** Whenever both calls return, the first score is at most the second. *)
Definition score_le (r1 r2 : result (pyfloat * string)) : Prop :=
  ∀ a e1 b e2, r1 = Ok (a, e1) → r2 = Ok (b, e2) → fle a b.

(** The two tasks differ at most in their importance. *)
Definition same_but_importance (t1 t2 : Task) : Prop :=
  id t1 = id t2 ∧ due_date t1 = due_date t2
  ∧ estimated_hours t1 = estimated_hours t2 ∧ dependencies t1 = dependencies t2.

(** The two tasks differ at most in their due date. *)
Definition same_but_due_date (t1 t2 : Task) : Prop :=
  id t1 = id t2 ∧ importance t1 = importance t2
  ∧ estimated_hours t1 = estimated_hours t2 ∧ dependencies t1 = dependencies t2.

(** The two tasks differ at most in their estimated hours. *)
Definition same_but_hours (t1 t2 : Task) : Prop :=
  id t1 = id t2 ∧ importance t1 = importance t2
  ∧ due_date t1 = due_date t2 ∧ dependencies t1 = dependencies t2.

(** ** Tables of the importance and effort scorers *)

(** A field's value with the default put in place of [None]. *)
Definition or_default (v : pyval) (d : Z) : pyval :=
  if is_None v then PInt d else v.

(** [max(1, min(10, x))] on a float, as a rational: [nan] and [inf] end at
    10, [-inf] at 1. *)
Definition clamp_1_10 (f : pyfloat) : Q :=
  match f with
  | Fin q => if Qle_bool q 1 then 1 else if Qle_bool 10 q then 10 else q
  | NInf => 1
  | PInf | NaN => 10
  end.

(** The rational is a whole number. *)
Definition whole (q : Q) : Prop := ∃ z : Z, (q == inject_Z z)%Q.

(** The value is an integer beyond the range of a float. *)
Definition huge_int (v : pyval) : Prop :=
  ∃ z, v = PInt z ∧ float_int_bound <= Z.abs z.

(** ** The explanation and the suggestions *)

(** The order in which the explanation names the factors: by weight,
    heaviest first, factors of equal weight in the order urgency,
    importance, effort, dependencies. *)
Definition factor_order (strategy : string) : list string :=
  if decide (strategy = "quick_wins")
  then ["Effort"; "Urgency"; "Importance"; "Dependencies"]
  else if decide (strategy = "high_impact")
  then ["Importance"; "Urgency"; "Dependencies"; "Effort"]
  else ["Urgency"; "Importance"; "Dependencies"; "Effort"].

(** The field is missing or holds a number (a bool counts as one): what
    [task.get(key, d) >= n] needs in order not to raise. *)
Definition compares_with_int (field : option pyval) : bool :=
  match field with
  | None => true
  | Some (PBool _) | Some (PInt _) | Some (PFloat _) => true
  | Some _ => false
  end.

(** Both fields that [generate_suggestion_reason] compares are missing or
    numbers. *)
Definition reason_safe (task : ScoredTask) : bool :=
  compares_with_int (importance (s_task task))
  && compares_with_int (estimated_hours (s_task task)).

(** ** The id assignment of the analyze view

    [views.py], lines 62-68: a validated task that has no id, or whose id
    is [None], gets its position in the request, counted from 1. *)

(** [task_dict['id'] = i] on the copy of the task *)
Definition with_id (task : Task) (i : Z) : Task :=
  mkTask (Some i) (title task) (due_date task) (estimated_hours task)
         (importance task) (dependencies task).

Definition add_missing_ids (tasks : list Task) : list Task :=
  map (fun '(i, task) =>
         match id task with
         | None => with_id task (i + 1)
         | Some _ => task
         end)
      (enumerate 0 tasks).

(** ** Sample tasks *)

(** A record whose importance is null. *)
Definition null_importance_task : Task :=
  mkTask (Some 1) (Some (PStr "Write report")) None None (Some PNone) None.

(** A task that depends on itself. *)
Definition self_dependent_task : Task :=
  mkTask (Some 1) (Some (PStr "Loop")) None None None (Some (PList [1])).

(** A chain: the first task depends on the second, the second on the
    third. *)
Definition chain_of_three : list Task :=
  [ full_task 1 (PStr "2025-06-20") (PInt 3) (PInt 5) [2];
    full_task 2 (PStr "2025-06-20") (PInt 3) (PInt 5) [3];
    full_task 3 (PStr "2025-06-20") (PInt 3) (PInt 5) [] ].





(** Four tasks, the last two with equal scores. *)
Definition sample_tasks : list Task :=
  [ full_task 1 (PStr "2025-07-15") (PInt 10) (PInt 2) [];
    full_task 2 (PStr "2025-06-16") (PInt 1) (PInt 10) [];
    full_task 3 (PStr "2025-06-20") (PFloat (Fin (5 # 2))) (PStr "high") [1];
    full_task 4 (PStr "2025-06-20") (PFloat (Fin (5 # 2))) (PStr "high") [1] ].

(** Due tomorrow, one hour; due in ten days, twenty hours. *)
Definition soon_and_short : Task :=
  full_task 1 (PStr "2025-06-16") (PInt 1) (PInt 5) [].

Definition later_and_long : Task :=
  full_task 2 (PStr "2025-06-25") (PInt 20) (PInt 5) [].

(** Two tasks that depend on each other. *)
Definition cyclic_tasks : list Task :=
  [ full_task 1 (PStr "2025-06-20") (PInt 3) (PInt 5) [2];
    full_task 2 (PStr "2025-06-20") (PInt 3) (PInt 5) [1] ].

(** Three tasks with numeric fields; the second and the third depend on
    the first, which is due tomorrow. *)
Definition numeric_tasks : list Task :=
  [ full_task 1 (PStr "2025-06-16") (PInt 1) (PInt 9) [];
    full_task 2 (PStr "2025-07-15") (PInt 10) (PInt 2) [1];
    full_task 3 (PStr "2025-06-20") (PInt 3) (PInt 5) [1] ].

(** The three tasks followed by one whose importance is beyond the range
    of a float. *)
Definition overflowing_tasks : list Task :=
  numeric_tasks ++ [ full_task 4 (PStr "2025-07-15") (PInt 2) (PInt (2 ^ 1024)) [] ].

(** The same task with importance 3 and importance 8. *)
Definition low_importance : Task := full_task 1 (PStr "2025-06-20") (PInt 3) (PInt 3) [].
Definition high_importance : Task := full_task 1 (PStr "2025-06-20") (PInt 3) (PInt 8) [].

(** The same task due tomorrow and due in a week. *)
Definition due_tomorrow : Task := full_task 1 (PStr "2025-06-16") (PInt 3) (PInt 5) [].
Definition due_next_week : Task := full_task 1 (PStr "2025-06-22") (PInt 3) (PInt 5) [].

(** The same task estimated at three hours, at twelve hours and at half an
    hour. *)
Definition short_job : Task := full_task 1 (PStr "2025-06-20") (PInt 3) (PInt 5) [].
Definition long_job : Task := full_task 1 (PStr "2025-06-20") (PInt 12) (PInt 5) [].
Definition half_hour_job : Task :=
  full_task 1 (PStr "2025-06-20") (PFloat (Fin (1 # 2))) (PInt 5) [].

(** A request whose tasks carry no ids; the first depends on the second. *)
Definition request_without_ids : list Task :=
  [ mkTask None (Some (PStr "Deploy")) None None None (Some (PList [2]));
    mkTask None (Some (PStr "Build")) None None None None ].

(** * Properties *)

Lemma float_int_bound_large : 1000 < float_int_bound.
Proof. vm_compute. reflexivity. Qed.

Lemma float_of_int_small z :
  Z.abs z < float_int_bound → float_of_int z = Ok (Fin (inject_Z z)).
Proof.
  intros H. unfold float_of_int.
  destruct (Z.ltb_spec (Z.abs z) float_int_bound); [done | lia].
Qed.

Lemma float_of_int_100 z :
  0 <= z <= 100 → float_of_int z = Ok (Fin (inject_Z z)).
Proof.
  intros H. apply float_of_int_small.
  pose proof float_int_bound_large. lia.
Qed.

(** ** The urgency scorer *)

Lemma urgency_table_bounds d : 10 <= urgency_table d <= 100.
Proof.
  unfold urgency_table. destruct d as [d|]; [|lia].
  repeat match goal with
         | |- context [if ?b then _ else _] => destruct b eqn:?
         end; lia.
Qed.

Lemma urgency_score_table env task :
  ∃ expl, calculate_urgency_score env task
          = Ok (Fin (inject_Z (urgency_table (days_until_due env task))), expl).
Proof.
  unfold calculate_urgency_score, days_until_due.
  destruct (parse_date env (get (due_date task))) as [due|]; simpl; [|eauto].
  set (d := due - today env).
  repeat match goal with
         | |- context [Z.ltb ?a ?b] => destruct (Z.ltb_spec a b)
         | |- context [Z.eqb ?a ?b] => destruct (Z.eqb_spec a b)
         | |- context [Z.leb ?a ?b] => destruct (Z.leb_spec a b)
         end; simpl; try lia;
    try (rewrite float_of_int_100 by lia; simpl); eexists; reflexivity.
Qed.

(** C4.  For every task and every fixed today, the urgency scorer returns,
    and its score is the entry of the specification's table for the days
    until due: 100 when overdue, 95 when due today, [94 - (d-1)*5] for 1 to
    3 days, [79 - (d-4)*7] for 4 to 7, [49 - (d-8)*3] for 8 to 14,
    [max(10, 29 - (d-15))] beyond, and 50 when the due date is absent or
    does not parse. *)
Theorem urgency_score_matches_table (env : Env) (task : Task) :
  fst <$> calculate_urgency_score env task
  = Ok (Fin (inject_Z (urgency_table (days_until_due env task)))).
Proof.
  destruct (urgency_score_table env task) as [expl ->]. reflexivity.
Qed.

(** ** The dependency scorer *)

Lemma id_in_nil (x : node_t) : id_in x [] = false.
Proof.
  destruct x; [|done]. unfold id_in. apply bool_decide_eq_false_2. set_solver.
Qed.

Lemma other_deps_spec (v : pyval) (x : node_t) (a b : Z) :
  match py_or v (PList []) with
  | PList l => if id_in x l then a else b
  | _ => b
  end
  = if match v with PList l => id_in x l | _ => false end then a else b.
Proof.
  unfold py_or.
  destruct v as [|c|z|f|s|l|keys|d|d us]; simpl; rewrite ?id_in_nil; try done.
  - by destruct c; rewrite ?id_in_nil.
  - by destruct (negb _); rewrite ?id_in_nil.
  - by destruct f; simpl; try destruct (negb _); rewrite ?id_in_nil.
  - by destruct (negb _); rewrite ?id_in_nil.
  - destruct l; simpl; by rewrite ?id_in_nil.
  - by destruct (negb _); rewrite ?id_in_nil.
Qed.

Lemma count_blocking_acc x all acc :
  fold_left
    (fun blocking_count other_task =>
       match py_or (get (dependencies other_task)) (PList []) with
       | PList l => if id_in x l then blocking_count + 1 else blocking_count
       | _ => blocking_count
       end)
    all acc
  = acc + Z.of_nat (length (filter (fun other => depends_on other x = true) all)).
Proof.
  revert acc. induction all as [|o all IH]; intros acc; simpl; [lia|].
  rewrite IH, other_deps_spec, filter_cons.
  fold (depends_on o x).
  destruct (depends_on o x); case_decide; try done; simpl length; lia.
Qed.

Lemma count_blocking_spec task all_tasks :
  count_blocking (id task) all_tasks = Z.of_nat (blocking_count task all_tasks).
Proof. unfold count_blocking, blocking_count. by rewrite count_blocking_acc. Qed.

Lemma task_dependencies_spec task :
  task_dependencies task
  = match get (dependencies task) with PList l => l | _ => [] end.
Proof.
  unfold task_dependencies, py_or.
  destruct (get (dependencies task)) as [|c|z|f|s|l|keys|d|d us]; simpl; try done.
  - by destruct c.
  - by destruct (negb _).
  - by destruct f; simpl; try destruct (negb _).
  - by destruct (negb _).
  - by destruct l.
  - by destruct (negb _).
Qed.

Lemma dependency_table_spec (n : nat) :
  (if 3 <=? Z.of_nat n then Fin 100
   else if Z.of_nat n =? 2 then Fin 80
   else if Z.of_nat n =? 1 then Fin 60 else Fin 40)
  = Fin (dependency_table n).
Proof.
  destruct n as [|[|[|n]]]; try reflexivity.
  destruct (Z.leb_spec 3 (Z.of_nat (S (S (S n))))); [reflexivity | lia].
Qed.

(** C1.  For every task and task set: when the task's dependencies are a
    non-empty list the dependency score is 20, whatever the ids in it and
    whatever the task set; in every other case the score is a function of
    the blocking count alone, the number of tasks of the set whose
    dependency list contains this task's id: 40 for none, 60 for one, 80
    for two, 100 for three or more. *)
Theorem dependency_score_rule (task : Task) (all_tasks : list Task) :
  fst (calculate_dependency_score task all_tasks)
  = match get (dependencies task) with
    | PList (_ :: _) => Fin 20
    | _ => Fin (dependency_table (blocking_count task all_tasks))
    end.
Proof.
  unfold calculate_dependency_score.
  rewrite task_dependencies_spec, count_blocking_spec, <- dependency_table_spec.
  set (n := Z.of_nat (blocking_count task all_tasks)).
  destruct (get (dependencies task)) as [|c|z|f|s|[|i l]|keys|d|d us];
    simpl length; simpl (0 <? _); cbv iota;
    try (destruct (3 <=? n), (n =? 2), (n =? 1); reflexivity).
Qed.

(** ** Comparisons of rationals *)

Lemma Qle_bool_false (a b : Q) : Qle_bool a b = false → (b < a)%Q.
Proof.
  intros H. apply Qnot_le_lt. intros Hle.
  apply Qle_bool_iff in Hle. congruence.
Qed.

Lemma Qltb_true (a b : Q) : Qltb a b = true → (a < b)%Q.
Proof.
  unfold Qltb. intros H. apply Qle_bool_false. by destruct (Qle_bool b a).
Qed.

Lemma Qltb_false (a b : Q) : Qltb a b = false → (b <= a)%Q.
Proof.
  unfold Qltb. intros H. apply Qle_bool_iff. by destruct (Qle_bool b a).
Qed.

(** Case analysis on every rational comparison of the goal, keeping the
    outcome as an inequality. *)
Ltac case_Q :=
  repeat match goal with
         | |- context [Qle_bool ?a ?b] =>
             let E := fresh "E" in
             destruct (Qle_bool a b) eqn:E;
             [apply Qle_bool_iff in E | apply Qle_bool_false in E]
         | |- context [Qltb ?a ?b] =>
             let E := fresh "E" in
             destruct (Qltb a b) eqn:E;
             [apply Qltb_true in E | apply Qltb_false in E]
         end.

Ltac Q_simpl := unfold inject_Z in *; simpl in *.

(** ** The importance scorer *)

Lemma clamp_importance (f : pyfloat) :
  clamped_importance (py_max (NInt 1) (py_min (NInt 10) (NFloat f))).
Proof.
  unfold clamped_importance, py_max, py_min, num_gtb, num_ltb.
  destruct f as [q| | |]; simpl; eauto.
  case_Q; simpl; case_Q; eauto; Q_simpl.
  right. right. right. exists q. split; [done|]. split; lra.
Qed.

Lemma effective_importance_cases env task :
  ok_or_overflow clamped_importance (effective_importance env task).
Proof.
  unfold effective_importance.
  destruct (py_float env _) as [f|[]]; simpl; try done.
  - apply clamp_importance.
  - unfold clamped_importance; eauto.
  - unfold clamped_importance; eauto.
Qed.

Lemma importance_score_range env task :
  ok_or_overflow (fun r => in_range 10 100 r.1) (calculate_importance_score env task).
Proof.
  unfold calculate_importance_score.
  pose proof (effective_importance_cases env task) as H.
  destruct (effective_importance env task) as [n|e]; simpl in *; [|done].
  destruct H as [->|[->|[->|(q & -> & Hq)]]]; simpl;
    rewrite ?float_of_int_100 by lia; simpl; Q_simpl;
    first [lra | by split; vm_compute].
Qed.

(** ** The effort scorer *)

Lemma floor_hours (f : pyfloat) :
  floored_hours (py_max (NFloat (Fin (1 # 2))) (NFloat f)).
Proof.
  unfold floored_hours, py_max, num_gtb, num_ltb.
  destruct f as [q| | |]; simpl; eauto.
  - case_Q; right; right; eexists; (split; [done|]); lra.
  - right; right; eexists; (split; [done|]); lra.
  - right; right; eexists; (split; [done|]); lra.
Qed.

Lemma effective_hours_cases env task :
  ok_or_overflow floored_hours (effective_hours env task).
Proof.
  unfold effective_hours.
  destruct (py_float env _) as [f|[]]; simpl; try done.
  - apply floor_hours.
  - unfold floored_hours; eauto.
  - unfold floored_hours; eauto.
Qed.

Ltac effort_cases :=
  unfold effort_value, effort_curve, py_max, num_gtb, num_ltb, num_leb;
  simpl; case_Q; simpl; case_Q; simpl.

Lemma effort_value_range (h : num) :
  floored_hours h → in_range 10 100 (effort_value h).
Proof.
  intros [->|[->|(q & -> & Hq)]].
  - by split; vm_compute.
  - by split; vm_compute.
  - effort_cases; Q_simpl; lra.
Qed.

Lemma effort_value_default : effort_value (NInt 4) = Fin 70.
Proof. reflexivity. Qed.

Lemma effort_value_inf : effort_value (NFloat PInf) = Fin 10.
Proof. reflexivity. Qed.

Ltac effort_order Hle :=
  apply Qle_bool_iff in Hle; simpl in Hle;
  effort_cases; try done; exfalso; Q_simpl; lra.

Lemma effort_value_antitone (h1 h2 : num) :
  floored_hours h1 → floored_hours h2 → num_leb h1 h2 = true →
  fle (effort_value h2) (effort_value h1).
Proof.
  unfold fle.
  intros [->|[->|(q1 & -> & Hq1)]] [->|[->|(q2 & -> & Hq2)]] Hle;
    rewrite ?effort_value_default, ?effort_value_inf.
  - done.
  - done.
  - effort_order Hle.
  - done.
  - done.
  - done.
  - effort_order Hle.
  - pose proof (effort_value_range (NFloat (Fin q1))) as Hr.
    destruct (effort_value (NFloat (Fin q1))) as [s| | |]; simpl in *;
      try (exfalso; apply Hr; right; right; eauto).
    apply Qle_bool_iff. apply Hr. right; right; eauto.
  - effort_order Hle.
Qed.

Lemma float_of_effort_value (h : num) :
  floored_hours h → float_of_num (effort_curve h).1 = Ok (effort_value h).
Proof.
  intros [->|[->|(q & -> & Hq)]]; try reflexivity.
  unfold effort_value, effort_curve, py_max, num_gtb, num_ltb, num_leb.
  simpl. case_Q; simpl; case_Q; try reflexivity.
Qed.

Lemma effort_score_value env task :
  match effective_hours env task with
  | Ok h => ∃ expl, calculate_effort_score env task = Ok (effort_value h, expl)
  | Raise e => calculate_effort_score env task = Raise e
  end.
Proof.
  unfold calculate_effort_score.
  pose proof (effective_hours_cases env task) as H.
  destruct (effective_hours env task) as [h|e]; simpl in *; [|done].
  pose proof (float_of_effort_value h H) as Hf.
  destruct (effort_curve h) as [score category]; simpl in *.
  rewrite Hf. simpl. eauto.
Qed.

Lemma effort_score_range env task :
  ok_or_overflow (fun r => in_range 10 100 r.1) (calculate_effort_score env task).
Proof.
  pose proof (effective_hours_cases env task) as H.
  pose proof (effort_score_value env task) as Hv.
  destruct (effective_hours env task) as [h|e]; simpl in *.
  - destruct Hv as [expl ->]. simpl. by apply effort_value_range.
  - by rewrite Hv.
Qed.

(** ** Rounding *)

Lemma Qround_half_even_bounds (q : Q) (a b : Z) :
  (inject_Z a <= q <= inject_Z b)%Q → a <= Qround_half_even q <= b.
Proof.
  intros [Ha Hb]. unfold Qround_half_even.
  pose proof (Qfloor_le q) as Hfl.
  pose proof (Qlt_floor q) as Hlt.
  assert (a <= Qfloor q).
  { rewrite <- (Qfloor_Z a). by apply Qfloor_resp_le. }
  assert (Qfloor q <= b).
  { rewrite <- (Qfloor_Z b). by apply Qfloor_resp_le. }
  assert (Hup : (1 # 2 <= q - inject_Z (Qfloor q))%Q → Qfloor q + 1 <= b).
  { intros Hhalf.
    destruct (Z.eq_dec (Qfloor q) b) as [Heq|]; [|lia].
    exfalso. rewrite Heq in Hhalf. lra. }
  destruct (q - inject_Z (Qfloor q) ?= 1 # 2)%Q eqn:E.
  - apply Qeq_alt in E.
    destruct (Z.even (Qfloor q)); [lia|].
    split; [lia|]. apply Hup. rewrite E. lra.
  - lia.
  - apply Qgt_alt in E. split; [lia|]. apply Hup. lra.
Qed.

Lemma py_round_2_range (lo hi : Z) (q : Q) :
  in_range (inject_Z lo) (inject_Z hi) (Fin q) →
  in_range (inject_Z lo) (inject_Z hi) (py_round (Fin q) 2).
Proof.
  simpl. intros [Hlo Hhi].
  change (inject_Z (10 ^ Z.of_nat 2)) with (100 : Q).
  destruct (Qround_half_even_bounds (q * 100) (lo * 100) (hi * 100)) as [H1 H2].
  { rewrite !inject_Z_mult. change (inject_Z 100) with (100 : Q). split; lra. }
  rewrite Zle_Qle, inject_Z_mult in H1, H2.
  change (inject_Z 100) with (100 : Q) in H1, H2.
  set (r := inject_Z (Qround_half_even (q * 100))) in *.
  split.
  - apply Qle_shift_div_l; [reflexivity | exact H1].
  - apply Qle_shift_div_r; [reflexivity | exact H2].
Qed.

(** ** Strategy weights *)

Lemma smart_balance_default : STRATEGY_WEIGHTS !!! "smart_balance" = smart_balance.
Proof. by vm_compute. Qed.

Lemma strategy_weights_unknown (strategy : string) :
  STRATEGY_WEIGHTS !! strategy = None → strategy_weights strategy = smart_balance.
Proof.
  intros H. unfold strategy_weights. rewrite H. apply smart_balance_default.
Qed.

Lemma strategy_weights_smart_balance : strategy_weights "smart_balance" = smart_balance.
Proof. by vm_compute. Qed.

Lemma strategy_lookup_unknown (strategy : string) :
  strategy ≠ "smart_balance" → strategy ≠ "quick_wins" →
  strategy ≠ "high_impact" → strategy ≠ "deadline_driven" →
  STRATEGY_WEIGHTS !! strategy = None.
Proof.
  intros. unfold STRATEGY_WEIGHTS. by rewrite !lookup_insert_ne.
Qed.

Lemma strategy_weights_convex (strategy : string) : convex (strategy_weights strategy).
Proof.
  unfold strategy_weights, STRATEGY_WEIGHTS.
  rewrite !lookup_insert. rewrite lookup_empty.
  repeat case_decide; simpl; rewrite ?smart_balance_default;
    (do 4 eexists; split; [reflexivity|]); repeat split; try done; by vm_compute.
Qed.

(** ** The blended score *)

Lemma dependency_score_range task all_tasks :
  in_range 20 100 (calculate_dependency_score task all_tasks).1.
Proof.
  unfold calculate_dependency_score.
  repeat match goal with
         | |- context [if ?b then _ else _] => destruct b
         end; by split; vm_compute.
Qed.

Lemma urgency_score_range env task :
  ∃ s expl, calculate_urgency_score env task = Ok (Fin s, expl) ∧ (10 <= s <= 100)%Q.
Proof.
  destruct (urgency_score_table env task) as [expl ->].
  pose proof (urgency_table_bounds (days_until_due env task)) as [H1 H2].
  do 2 eexists. split; [reflexivity|].
  rewrite Zle_Qle in H1, H2. by split.
Qed.

Lemma blend_range (w : Weights) (u i e d : Q) (lo : Q) :
  convex w →
  (lo <= u <= 100)%Q → (lo <= i <= 100)%Q → (lo <= e <= 100)%Q → (lo <= d <= 100)%Q →
  in_range lo 100
    (fadd (fadd (fadd (fmul (Fin u) (w_urgency w)) (fmul (Fin i) (w_importance w)))
                (fmul (Fin e) (w_effort w)))
          (fmul (Fin d) (w_dependencies w))).
Proof.
  intros (a & b & c & k & -> & Ha & Hb & Hc & Hk & Hsum) Hu Hi He Hd. simpl.
  assert (Hlo : (lo * (a + b + c + k) <= u * a + i * b + e * c + d * k)%Q) by nra.
  assert (Hhi : (u * a + i * b + e * c + d * k <= 100 * (a + b + c + k))%Q) by nra.
  rewrite Hsum in Hlo, Hhi. split; lra.
Qed.

Lemma priority_score_range env task all_tasks strategy :
  ok_or_overflow (in_range 10 100)
    (calculate_priority_score env task all_tasks strategy).
Proof.
  unfold calculate_priority_score.
  destruct (urgency_score_range env task) as (u & ue & -> & Hu).
  pose proof (importance_score_range env task) as Hi.
  destruct (calculate_importance_score env task) as [[i ie]|]; simpl in *; [|done].
  pose proof (effort_score_range env task) as He.
  destruct (calculate_effort_score env task) as [[e ee]|]; simpl in *; [|done].
  pose proof (dependency_score_range task (default [] all_tasks)) as Hd.
  destruct (calculate_dependency_score task (default [] all_tasks)) as [d de].
  destruct i as [i| | |], e as [e| | |], d as [d| | |]; simpl in Hi, He, Hd; try done.
  pose proof (blend_range (strategy_weights strategy) u i e d 10
                (strategy_weights_convex strategy) Hu Hi He) as Hb.
  destruct (fadd _ _) as [t| | |]; simpl in Hb; try (exfalso; apply Hb; lra).
  apply (py_round_2_range 10 100). apply Hb. lra.
Qed.

(** ** Returning a score *)

Lemma py_float_in_range env v :
  in_float_range v → py_float env v ≠ Raise OverflowError.
Proof.
  intros H. destruct v as [|c|z|f|s|l|keys|d|d us]; simpl; try done.
  - rewrite float_of_int_small by auto. done.
  - by destruct (float_of_str env s).
Qed.

Lemma default_in_float_range (v : pyval) (d : Z) :
  0 <= d <= 100 → in_float_range v →
  in_float_range (if is_None v then PInt d else v).
Proof.
  intros Hd H. destruct v; simpl; try done.
  intros z [= <-]. pose proof float_int_bound_large. lia.
Qed.

Lemma ok_or_overflow_returns {A : Type} (P : A → Prop) (r : result A) :
  ok_or_overflow P r → r ≠ Raise OverflowError → ∃ a, r = Ok a ∧ P a.
Proof. destruct r as [a|e]; simpl; [eauto | congruence]. Qed.

Lemma ok_or_overflow_weaken {A : Type} (P Q : A → Prop) (r : result A) :
  (∀ a, P a → Q a) → ok_or_overflow P r → ok_or_overflow Q r.
Proof. destruct r; simpl; auto. Qed.

Lemma effective_importance_returns env task :
  in_float_range (get (importance task)) →
  ∃ n, effective_importance env task = Ok n ∧ clamped_importance n.
Proof.
  intros H. apply ok_or_overflow_returns; [apply effective_importance_cases|].
  unfold effective_importance.
  pose proof (py_float_in_range env _
                (default_in_float_range _ (d_importance DEFAULTS) ltac:(done) H)) as Hf.
  destruct (py_float env _) as [f|[]]; simpl; done.
Qed.

Lemma effective_hours_returns env task :
  in_float_range (get (estimated_hours task)) →
  ∃ h, effective_hours env task = Ok h ∧ floored_hours h.
Proof.
  intros H. apply ok_or_overflow_returns; [apply effective_hours_cases|].
  unfold effective_hours.
  pose proof (py_float_in_range env _
                (default_in_float_range _ (d_estimated_hours DEFAULTS) ltac:(done) H)) as Hf.
  destruct (py_float env _) as [f|[]]; simpl; done.
Qed.

Lemma importance_score_returns env task :
  in_float_range (get (importance task)) →
  ∃ r, calculate_importance_score env task = Ok r.
Proof.
  intros H. destruct (effective_importance_returns env task H) as (n & Hn & Hc).
  unfold calculate_importance_score. rewrite Hn. simpl.
  destruct Hc as [->|[->|[->|(q & -> & Hq)]]]; simpl;
    rewrite ?float_of_int_100 by lia; simpl; eauto.
Qed.

Lemma effort_score_returns env task :
  in_float_range (get (estimated_hours task)) →
  ∃ r, calculate_effort_score env task = Ok r.
Proof.
  intros H. destruct (effective_hours_returns env task H) as (h & Hh & _).
  pose proof (effort_score_value env task) as Hv. rewrite Hh in Hv.
  destruct Hv as [expl ->]. eauto.
Qed.

Lemma priority_score_returns env task all_tasks strategy :
  in_float_range (get (importance task)) →
  in_float_range (get (estimated_hours task)) →
  ∃ s, calculate_priority_score env task all_tasks strategy = Ok s.
Proof.
  intros Hi He. unfold calculate_priority_score.
  destruct (urgency_score_range env task) as (u & ue & -> & _).
  destruct (importance_score_returns env task Hi) as [[i ie] ->].
  destruct (effort_score_returns env task He) as [[e ee] ->]. simpl.
  destruct (calculate_dependency_score task (default [] all_tasks)). eauto.
Qed.

Lemma explanation_returns env task all_tasks strategy :
  in_float_range (get (importance task)) →
  in_float_range (get (estimated_hours task)) →
  ∃ s, get_score_explanation env task all_tasks strategy = Ok s.
Proof.
  intros Hi He. unfold get_score_explanation.
  destruct (urgency_score_range env task) as (u & ue & -> & _).
  destruct (importance_score_returns env task Hi) as [[i ie] ->].
  destruct (effort_score_returns env task He) as [[e ee] ->]. simpl.
  destruct (calculate_dependency_score task (default [] all_tasks)). eauto.
Qed.

Lemma in_range_weaken (lo lo' hi : Q) (f : pyfloat) :
  (lo' <= lo)%Q → in_range lo hi f → in_range lo' hi f.
Proof. destruct f; simpl; [|done..]. intros ? [? ?]. split; lra. Qed.

(** C6.  For every task, task set and strategy name, each of the four
    component scores lies in [0, 100] and so does the priority score that
    [calculate_priority_score] returns.  The urgency and dependency scorers
    always return; the other calls return whenever no integer beyond the
    range of a float is given as importance or estimated hours, and they
    raise nothing but [OverflowError] otherwise. *)
Theorem scores_within_0_100
    (env : Env) (task : Task) (task_set : list Task)
    (all_tasks : option (list Task)) (strategy : string) :
  (∃ s expl, calculate_urgency_score env task = Ok (s, expl) ∧ in_range 0 100 s)
  ∧ ok_or_overflow (fun r => in_range 0 100 r.1) (calculate_importance_score env task)
  ∧ ok_or_overflow (fun r => in_range 0 100 r.1) (calculate_effort_score env task)
  ∧ in_range 0 100 (calculate_dependency_score task task_set).1
  ∧ ok_or_overflow (in_range 0 100)
      (calculate_priority_score env task all_tasks strategy)
  ∧ (in_float_range (get (importance task)) →
     in_float_range (get (estimated_hours task)) →
     ∃ s, calculate_priority_score env task all_tasks strategy = Ok s
          ∧ in_range 0 100 s).
Proof.
  assert (Hw : ∀ f, in_range 10 100 f → in_range 0 100 f).
  { intros f. by apply in_range_weaken. }
  repeat split.
  - destruct (urgency_score_range env task) as (u & ue & -> & Hu).
    do 2 eexists. split; [reflexivity|]. simpl. lra.
  - eapply ok_or_overflow_weaken; [|apply importance_score_range]. intros r. apply Hw.
  - eapply ok_or_overflow_weaken; [|apply effort_score_range]. intros r. apply Hw.
  - eapply in_range_weaken; [|apply dependency_score_range]. done.
  - eapply ok_or_overflow_weaken; [|apply priority_score_range]. apply Hw.
  - intros Hi He.
    destruct (priority_score_returns env task all_tasks strategy Hi He) as [s Hs].
    exists s. split; [done|].
    pose proof (priority_score_range env task all_tasks strategy) as Hr.
    rewrite Hs in Hr. by apply Hw.
Qed.

(** C9.  For every task and task set the urgency, importance and effort
    scores are at least 10 and the dependency score at least 20, so the
    priority score is at least 10 under each of the four preset strategies
    (and under any other name, which selects the [smart_balance] preset). *)
Theorem scores_at_least_10
    (env : Env) (task : Task) (task_set : list Task)
    (all_tasks : option (list Task)) (strategy : string) :
  (∃ s expl, calculate_urgency_score env task = Ok (s, expl) ∧ in_range 10 100 s)
  ∧ ok_or_overflow (fun r => in_range 10 100 r.1) (calculate_importance_score env task)
  ∧ ok_or_overflow (fun r => in_range 10 100 r.1) (calculate_effort_score env task)
  ∧ in_range 20 100 (calculate_dependency_score task task_set).1
  ∧ convex (strategy_weights strategy)
  ∧ ok_or_overflow (in_range 10 100)
      (calculate_priority_score env task all_tasks strategy)
  ∧ (in_float_range (get (importance task)) →
     in_float_range (get (estimated_hours task)) →
     ∃ s, calculate_priority_score env task all_tasks strategy = Ok s
          ∧ in_range 10 100 s).
Proof.
  repeat split.
  - destruct (urgency_score_range env task) as (u & ue & -> & Hu).
    do 2 eexists. split; [reflexivity|]. done.
  - apply importance_score_range.
  - apply effort_score_range.
  - apply dependency_score_range.
  - apply strategy_weights_convex.
  - apply priority_score_range.
  - intros Hi He.
    destruct (priority_score_returns env task all_tasks strategy Hi He) as [s Hs].
    exists s. split; [done|].
    pose proof (priority_score_range env task all_tasks strategy) as Hr.
    by rewrite Hs in Hr.
Qed.

(** ** Monotonicity *)

Lemma urgency_table_antitone (d1 d2 : Z) :
  d1 <= d2 → urgency_table (Some d2) <= urgency_table (Some d1).
Proof.
  intros H. unfold urgency_table.
  repeat match goal with
         | |- context [Z.ltb ?a ?b] => destruct (Z.ltb_spec a b)
         | |- context [Z.eqb ?a ?b] => destruct (Z.eqb_spec a b)
         | |- context [Z.leb ?a ?b] => destruct (Z.leb_spec a b)
         end; simpl; lia.
Qed.

Lemma urgency_table_overdue (d : Z) : d < 0 → urgency_table (Some d) = 100.
Proof.
  intros H. unfold urgency_table. destruct (Z.ltb_spec d 0); [done | lia].
Qed.

(** C10.  For a fixed today the urgency score is weakly decreasing in the
    days until due, over all integers, and an overdue task scores 100, the
    maximum; the effort score is weakly decreasing in the effective
    estimated hours, which are at least 0.5.  So of two tasks the one due
    no later (with no more hours) never has the lower urgency (effort)
    score. *)
Theorem urgency_and_effort_antitone (env : Env) (t1 t2 : Task) :
  (∀ d1 d2,
     days_until_due env t1 = Some d1 → days_until_due env t2 = Some d2 → d1 <= d2 →
     ∃ s1 e1 s2 e2,
       calculate_urgency_score env t1 = Ok (s1, e1)
       ∧ calculate_urgency_score env t2 = Ok (s2, e2)
       ∧ fle s2 s1 ∧ fle s1 (Fin 100) ∧ (d1 < 0 → s1 = Fin 100))
  ∧ (∀ h1 h2,
       effective_hours env t1 = Ok h1 → effective_hours env t2 = Ok h2 →
       num_leb h1 h2 = true →
       num_leb (NFloat (Fin (1 # 2))) h1 = true
       ∧ ∃ s1 e1 s2 e2,
           calculate_effort_score env t1 = Ok (s1, e1)
           ∧ calculate_effort_score env t2 = Ok (s2, e2)
           ∧ fle s2 s1).
Proof.
  split.
  - intros d1 d2 H1 H2 Hle.
    destruct (urgency_score_table env t1) as [e1 E1].
    destruct (urgency_score_table env t2) as [e2 E2].
    rewrite H1 in E1. rewrite H2 in E2.
    do 4 eexists. split; [exact E1|]. split; [exact E2|].
    pose proof (urgency_table_antitone d1 d2 Hle) as Hm.
    pose proof (urgency_table_bounds (Some d1)) as [_ Hb].
    repeat split.
    + apply Qle_bool_iff. by rewrite <- Zle_Qle.
    + apply Qle_bool_iff. change (100 : Q) with (inject_Z 100). by rewrite <- Zle_Qle.
    + intros Hd. by rewrite urgency_table_overdue.
  - intros h1 h2 H1 H2 Hle.
    pose proof (effective_hours_cases env t1) as F1. rewrite H1 in F1.
    pose proof (effective_hours_cases env t2) as F2. rewrite H2 in F2.
    pose proof (effort_score_value env t1) as V1. rewrite H1 in V1.
    pose proof (effort_score_value env t2) as V2. rewrite H2 in V2.
    destruct V1 as [e1 V1], V2 as [e2 V2]. simpl in F1, F2.
    split.
    + destruct F1 as [->|[->|(q & -> & Hq)]]; try done.
      by apply Qle_bool_iff.
    + do 4 eexists. split; [exact V1|]. split; [exact V2|].
      by apply effort_value_antitone.
Qed.

(** ** Unknown strategy names *)

Lemma effective_strategy_unknown (strategy : string) :
  STRATEGY_WEIGHTS !! strategy = None →
  (if decide (strategy ∉ dom STRATEGY_WEIGHTS) then "smart_balance" else strategy)
  = "smart_balance".
Proof.
  intros H. case_decide as Hd; [done|].
  apply elem_of_dom in Hd. rewrite H in Hd. by destruct Hd.
Qed.

Lemma effective_strategy_smart_balance :
  (if decide ("smart_balance" ∉ dom STRATEGY_WEIGHTS) then "smart_balance"
   else "smart_balance") = "smart_balance".
Proof. by case_decide. Qed.

(** C7.  For every strategy string that is none of the four preset names,
    [calculate_priority_score], [get_score_explanation] and [analyze_tasks]
    behave exactly as with ['smart_balance']: the same outcome on every
    input, so the name itself is never an error, and whatever the analysis
    returns reports ['smart_balance'] as the strategy used. *)
Theorem unknown_strategy_is_smart_balance
    (env : Env) (strategy : string) (task : Task)
    (all_tasks : option (list Task)) (tasks : list Task) :
  strategy ≠ "smart_balance" → strategy ≠ "quick_wins" →
  strategy ≠ "high_impact" → strategy ≠ "deadline_driven" →
  calculate_priority_score env task all_tasks strategy
  = calculate_priority_score env task all_tasks "smart_balance"
  ∧ get_score_explanation env task all_tasks strategy
    = get_score_explanation env task all_tasks "smart_balance"
  ∧ analyze_tasks env tasks strategy = analyze_tasks env tasks "smart_balance"
  ∧ (∀ r, analyze_tasks env tasks strategy = Ok r
          → a_strategy_used r = "smart_balance").
Proof.
  intros H1 H2 H3 H4.
  pose proof (strategy_lookup_unknown strategy H1 H2 H3 H4) as Hnone.
  assert (Hw : strategy_weights strategy = strategy_weights "smart_balance").
  { by rewrite (strategy_weights_unknown strategy Hnone), strategy_weights_smart_balance. }
  split; [|split; [|split]].
  - unfold calculate_priority_score. by rewrite Hw.
  - unfold get_score_explanation. by rewrite Hw.
  - unfold analyze_tasks.
    by rewrite (effective_strategy_unknown strategy Hnone), effective_strategy_smart_balance.
  - intros r. unfold analyze_tasks.
    rewrite (effective_strategy_unknown strategy Hnone).
    destruct (mapM _ tasks) as [ys|e]; simpl; [|done]. by intros [= <-].
Qed.

(** ** The stable descending sort *)

Lemma fltb_feqb (a b v : pyfloat) :
  fltb a b = true → feqb a v = true → feqb b v = false.
Proof.
  destruct a as [x| | |], b as [y| | |], v as [z| | |]; simpl; try done.
  intros Hlt%Qltb_true Heq%Qeq_bool_iff.
  destruct (Qeq_bool y z) eqn:E; [|done].
  apply Qeq_bool_iff in E. lra.
Qed.

Lemma fltb_false_fle (a b : pyfloat) :
  is_finite a → is_finite b → fltb a b = false → fle b a.
Proof.
  destruct a, b; simpl; try done. intros _ _ H%Qltb_false.
  by apply Qle_bool_iff.
Qed.

Lemma fltb_true_fle (a b : pyfloat) : fltb a b = true → fle a b.
Proof.
  destruct a, b; simpl; try done. intros H%Qltb_true.
  apply Qle_bool_iff. lra.
Qed.

Lemma fle_trans (a b c : pyfloat) :
  is_finite b → fle a b → fle b c → fle a c.
Proof.
  unfold fle. destruct a, b, c; simpl; try done.
  intros _ H1%Qle_bool_iff H2%Qle_bool_iff. apply Qle_bool_iff. lra.
Qed.

Section Sort.

Context {A : Type} (key : A → pyfloat).

Lemma insert_desc_perm (x : A) (l : list A) : insert_desc key x l ≡ₚ x :: l.
Proof.
  induction l as [|y l IH]; simpl; [done|].
  destruct (fltb (key x) (key y)); [|done].
  rewrite IH. apply Permutation_swap.
Qed.

Lemma sort_desc_perm (l : list A) : sort_desc key l ≡ₚ l.
Proof.
  induction l as [|x l IH]; simpl; [done|].
  fold (sort_desc key l). by rewrite insert_desc_perm, IH.
Qed.

Lemma insert_desc_sorted (x : A) (l : list A) :
  is_finite (key x) → Forall (fun y => is_finite (key y)) l →
  StronglySorted (desc key) l → StronglySorted (desc key) (insert_desc key x l).
Proof.
  intros Hx Hfin Hs. induction Hs as [|y l Hs IH Hy]; simpl.
  - repeat constructor.
  - apply Forall_cons in Hfin as [Hfy Hfin].
    destruct (fltb (key x) (key y)) eqn:E.
    + constructor; [by apply IH|].
      rewrite insert_desc_perm. constructor; [|done].
      by apply fltb_true_fle.
    + constructor; [by constructor|].
      assert (Hxy : desc key x y) by by apply fltb_false_fle.
      constructor; [done|].
      eapply Forall_impl; [exact Hy|]. intros z Hz.
      unfold desc in *. by apply (fle_trans _ (key y)).
Qed.

Lemma sort_desc_sorted (l : list A) :
  Forall (fun y => is_finite (key y)) l → StronglySorted (desc key) (sort_desc key l).
Proof.
  induction 1 as [|x l Hx Hl IH]; simpl; [constructor|].
  fold (sort_desc key l). apply insert_desc_sorted; [done| |done].
  by rewrite sort_desc_perm.
Qed.

(** Stability: the elements whose key equals [v] come out in the order in
    which they went in. *)
Lemma insert_desc_stable (v : pyfloat) (x : A) (l : list A) :
  filter (fun y => feqb (key y) v = true) (insert_desc key x l)
  = filter (fun y => feqb (key y) v = true) (x :: l).
Proof.
  induction l as [|y l IH]; simpl; [done|].
  destruct (fltb (key x) (key y)) eqn:E; [|done].
  rewrite (filter_cons _ y), IH, !filter_cons.
  destruct (decide (feqb (key x) v = true)) as [Hx|Hx];
    destruct (decide (feqb (key y) v = true)) as [Hy|Hy]; try done.
  pose proof (fltb_feqb _ _ _ E Hx). congruence.
Qed.

Lemma sort_desc_stable (v : pyfloat) (l : list A) :
  filter (fun y => feqb (key y) v = true) (sort_desc key l)
  = filter (fun y => feqb (key y) v = true) l.
Proof.
  induction l as [|x l IH]; simpl; [done|].
  fold (sort_desc key l). by rewrite insert_desc_stable, !filter_cons, IH.
Qed.

End Sort.

(** ** The analysis *)

Lemma mapM_Forall2 {A B : Type} (f : A → result B) (l : list A) (ys : list B) :
  mapM f l = Ok ys → Forall2 (fun x y => f x = Ok y) l ys.
Proof.
  revert ys. induction l as [|x l IH]; simpl; intros ys H.
  - injection H as <-. constructor.
  - destruct (f x) as [y|] eqn:E; simpl in H; [|done].
    destruct (mapM f l) as [ys'|]; simpl in H; [|done].
    injection H as <-. constructor; auto.
Qed.

Lemma Forall2_right {A B : Type} (P : A → B → Prop) (Q : B → Prop)
    (l : list A) (k : list B) :
  (∀ x y, P x y → Q y) → Forall2 P l k → Forall Q k.
Proof. intros H. induction 1; constructor; eauto. Qed.

Lemma level_of_tier (task : Task) (score : pyfloat) (expl : string) :
  is_finite score → tier_ok (mkScored task score expl (level_of score)).
Proof.
  destruct score as [q| | |]; try done. intros _.
  unfold tier_ok, level_of, num_geb, num_leb, fle, flt. simpl.
  change (inject_Z 70) with (70 : Q). change (inject_Z 40) with (40 : Q).
  destruct (Qle_bool 70 q) eqn:E70; [apply Qle_bool_iff in E70 | apply Qle_bool_false in E70];
    (destruct (Qle_bool 40 q) eqn:E40;
       [apply Qle_bool_iff in E40 | apply Qle_bool_false in E40]);
    (destruct (Qltb q 70) eqn:L70; [apply Qltb_true in L70 | apply Qltb_false in L70]);
    try (exfalso; lra); repeat split; try done; intros; try done; try tauto.
  all: try (destruct_and?; done).
  all: by intros [? ?].
Qed.

Lemma score_task_spec env tasks strategy task s :
  score_task env tasks strategy task = Ok s →
  scored_for env tasks strategy task s
  ∧ in_range 10 100 (s_priority_score s) ∧ tier_ok s.
Proof.
  unfold score_task, scored_for. intros H.
  pose proof (priority_score_range env task (Some tasks) strategy) as Hr.
  destruct (calculate_priority_score _ _ _ _) as [p|]; simpl in *; [|done].
  destruct (get_score_explanation _ _ _ _) as [e|]; simpl in *; [|done].
  injection H as <-. simpl. repeat split; try done.
  all: apply level_of_tier; by destruct p.
Qed.

Lemma in_range_finite (lo hi : Q) (f : pyfloat) : in_range lo hi f → is_finite f.
Proof. by destruct f. Qed.

(** C5.  For every task list and strategy, whatever [analyze_tasks]
    returns: its task list holds one scored record per input task and
    nothing else; the list is sorted by priority score, highest first;
    records with equal scores stand in their input order; and each
    record's level is ['high'] exactly when its score is at least 70,
    ['medium'] exactly when it is at least 40 and below 70, and ['low'] in
    every other case. *)
Theorem analyze_sorted_stable_tiered
    (env : Env) (tasks : list Task) (strategy : string) (r : Analysis) :
  analyze_tasks env tasks strategy = Ok r →
  ∃ scored : list ScoredTask,
    Forall2 (scored_for env tasks strategy) tasks scored
    ∧ a_tasks r ≡ₚ scored
    ∧ StronglySorted (desc s_priority_score) (a_tasks r)
    ∧ (∀ v, filter (fun s => feqb (s_priority_score s) v = true) (a_tasks r)
            = filter (fun s => feqb (s_priority_score s) v = true) scored)
    ∧ Forall tier_ok (a_tasks r)
    ∧ a_total_tasks r = Z.of_nat (length tasks).
Proof.
  unfold analyze_tasks. intros H.
  set (eff := if decide (strategy ∉ dom STRATEGY_WEIGHTS) then _ else _) in H.
  assert (Heff : ∀ task all_tasks,
             calculate_priority_score env task all_tasks eff
             = calculate_priority_score env task all_tasks strategy
             ∧ get_score_explanation env task all_tasks eff
               = get_score_explanation env task all_tasks strategy).
  { intros task all_tasks. subst eff. case_decide as Hd; [|done].
    apply not_elem_of_dom in Hd.
    unfold calculate_priority_score, get_score_explanation.
    by rewrite (strategy_weights_unknown strategy Hd), strategy_weights_smart_balance. }
  destruct (mapM _ tasks) as [scored|] eqn:E; simpl in H; [|done].
  injection H as <-. simpl.
  apply mapM_Forall2 in E.
  assert (Hall : Forall2 (fun t s => scored_for env tasks strategy t s
                                     ∧ in_range 10 100 (s_priority_score s)
                                     ∧ tier_ok s) tasks scored).
  { eapply Forall2_impl; [exact E|]. intros t s Hs.
    apply score_task_spec in Hs as ((H1 & H2 & H3) & H4 & H5).
    destruct (Heff t (Some tasks)) as [Hp He].
    split; [|by split]. unfold scored_for. by rewrite <- Hp, <- He. }
  exists scored. repeat split.
  - eapply Forall2_impl; [exact Hall|]. by intros t s [? _].
  - apply sort_desc_perm.
  - apply sort_desc_sorted. eapply Forall2_right; [|exact Hall].
    intros t s (_ & Hs & _). by apply in_range_finite in Hs.
  - intros v. apply sort_desc_stable.
  - rewrite sort_desc_perm. eapply Forall2_right; [|exact Hall].
    by intros t s (_ & _ & Hs).
Qed.

(** ** Cycle detection *)

Lemma for_each_preserves {A S : Type} (body : S → A → option S) (I : S → Prop)
    (l : list A) (st st' : S) :
  (∀ s x s', x ∈ l → I s → body s x = Some s' → I s') →
  I st → for_each body l st = Some st' → I st'.
Proof.
  revert st. induction l as [|x l IH]; simpl; intros st Hbody Hst H.
  - by injection H as <-.
  - destruct (body st x) as [s|] eqn:E; simpl in H; [|done].
    apply (IH s); [|by eapply Hbody; [left|..]|done].
    intros s0 y s1 Hy. apply Hbody. by right.
Qed.

Lemma for_each_returns {A S : Type} (body : S → A → option S) (I : S → Prop)
    (l : list A) (st : S) :
  (∀ s x, x ∈ l → I s → ∃ s', body s x = Some s' ∧ I s') →
  I st → ∃ st', for_each body l st = Some st'.
Proof.
  revert st. induction l as [|x l IH]; simpl; intros st Hbody Hst; [eauto|].
  destruct (Hbody st x) as (s & -> & Hs); [by left|done|]. simpl.
  apply IH; [|done]. intros s0 y Hy. apply Hbody. by right.
Qed.


Section DFS.

Context (graph : graph_t).

Lemma dfs_S (fuel : nat) (node : node_t) (path : list node_t) (st : dfs_state) :
  dfs (S fuel) graph node path st
  = if decide (node ∈ rec_stack st) then
      if decide (node ∈ path) then
        Some (mkState (cycles st ++ [drop (index_of node path) path ++ [node]])
                      (visited st) (rec_stack st))
      else Some st
    else if decide (node ∈ visited st) then Some st
    else
      for_each (explore graph fuel (path ++ [node])) (dict_get node graph)
        (mkState (cycles st) ({[node]} ∪ visited st) ({[node]} ∪ rec_stack st))
      ≫= fun st' => Some (mkState (cycles st') (visited st') (rec_stack st' ∖ {[node]})).
Proof. reflexivity. Qed.

Lemma extends_refl (st : dfs_state) : extends st st.
Proof. repeat split; [done|]. exists []. by rewrite app_nil_r. Qed.

Lemma extends_trans (a b c : dfs_state) : extends a b → extends b c → extends a c.
Proof.
  intros (R1 & V1 & cs1 & C1) (R2 & V2 & cs2 & C2). repeat split.
  - congruence.
  - set_solver.
  - exists (cs1 ++ cs2). by rewrite C2, C1, app_assoc.
Qed.

Lemma dfs_extends (fuel : nat) (node : node_t) (path : list node_t)
    (st st' : dfs_state) :
  dfs fuel graph node path st = Some st' → extends st st'.
Proof.
  revert node path st st'.
  induction fuel as [|fuel IH]; intros node path st st' H; [done|].
  rewrite dfs_S in H.
  destruct (decide (node ∈ rec_stack st)) as [Hrec|Hrec].
  { destruct (decide (node ∈ path)); injection H as <-; [|apply extends_refl].
    repeat split; simpl; eauto. }
  destruct (decide (node ∈ visited st)) as [Hvis|Hvis].
  { injection H as <-. apply extends_refl. }
  destruct (for_each _ _ _) as [s|] eqn:E; simpl in H; [|done].
  injection H as <-.
  apply (for_each_preserves _
           (extends (mkState (cycles st) ({[node]} ∪ visited st)
                             ({[node]} ∪ rec_stack st)))) in E.
  - destruct E as (R & V & cs & C). simpl in *. repeat split; simpl.
    + rewrite R. set_solver.
    + set_solver.
    + eauto.
  - intros s0 x s1 _ Hs0 Hx. unfold explore in Hx.
    eapply extends_trans; [exact Hs0|].
    destruct (dict_mem (Some x) graph); [by eapply IH|].
    injection Hx as <-. apply extends_refl.
  - apply extends_refl.
Qed.

Lemma explore_extends fuel path st x st' :
  explore graph fuel path st x = Some st' → extends st st'.
Proof.
  unfold explore. destruct (dict_mem (Some x) graph); [apply dfs_extends|].
  intros [= <-]. apply extends_refl.
Qed.



(** *** A node that is its own neighbour *)


Section SelfLoop.

Context (n : Z).
Hypothesis n_in_graph : Some n ∈ map fst graph.
Hypothesis n_self : n ∈ dict_get (Some n) graph.



End SelfLoop.

(** *** The recursion bound *)

Lemma size_list_to_set_le (l : list node_t) :
  (size (list_to_set l : gset node_t) ≤ length l)%nat.
Proof.
  induction l as [|k l IH]; cbn [length].
  - by rewrite list_to_set_nil, size_empty.
  - rewrite list_to_set_cons, size_union_alt, size_singleton.
    pose proof (subseteq_size (list_to_set l ∖ {[k]}) (list_to_set l : gset node_t)
                  ltac:(set_solver)). lia.
Qed.

Lemma graph_keys_size : (size (graph_keys graph) ≤ length graph)%nat.
Proof.
  unfold graph_keys. etrans; [apply size_list_to_set_le|]. by rewrite length_map.
Qed.

(** A call on a node of the graph returns when the fuel exceeds the number
    of nodes not yet visited. *)
Lemma dfs_enough_fuel (fuel : nat) (node : node_t) (path : list node_t)
    (st : dfs_state) :
  node ∈ map fst graph →
  (size (graph_keys graph ∖ visited st) < fuel)%nat →
  ∃ st', dfs fuel graph node path st = Some st'.
Proof.
  revert node path st.
  induction fuel as [|fuel IH]; intros node path st Hnode Hfuel; [lia|].
  rewrite dfs_S.
  destruct (decide (node ∈ rec_stack st)); [destruct (decide (node ∈ path)); eauto|].
  destruct (decide (node ∈ visited st)) as [|Hvis]; [eauto|].
  set (st1 := mkState (cycles st) ({[node]} ∪ visited st) ({[node]} ∪ rec_stack st)).
  assert (Hlt : (size (graph_keys graph ∖ visited st1) < fuel)%nat).
  { assert (graph_keys graph ∖ visited st1 ⊂ graph_keys graph ∖ visited st) as Hsub.
    { simpl. apply strict_spec_alt. split; [set_solver|].
      intros Heq. assert (node ∈ graph_keys graph ∖ visited st) as Hin.
      { unfold graph_keys. set_solver. }
      rewrite <- Heq in Hin. set_solver. }
    apply subset_size in Hsub. lia. }
  destruct (for_each_returns (explore graph fuel (path ++ [node])) (extends st1)
              (dict_get node graph) st1) as [s ->]; [|apply extends_refl|simpl; eauto].
  intros s x _ Hs. unfold explore, dict_mem.
  destruct (bool_decide (Some x ∈ map fst graph)) eqn:Hx.
  - apply bool_decide_eq_true in Hx.
    destruct (IH (Some x) (path ++ [node]) s Hx) as [s' Hs'].
    + destruct Hs as (_ & V & _).
      pose proof (subseteq_size (graph_keys graph ∖ visited s)
                      (graph_keys graph ∖ visited st1)
                    ltac:(set_solver)). lia.
    + exists s'. split; [done|]. eapply extends_trans; [exact Hs|]. by eapply dfs_extends.
  - exists s. split; [done|]. done.
Qed.

(** *** The loop over the nodes, lines 396-398 *)





End DFS.

Lemma detect_with_fuel_start fuel tasks :
  detect_with_fuel fuel tasks
  = for_each (start (build_graph tasks) fuel) (map fst (build_graph tasks))
      (mkState [] ∅ ∅) ≫= fun st => Some (cycles st).
Proof. reflexivity. Qed.

Lemma detect_returns (tasks : list Task) :
  ∃ cs, detect_with_fuel (S (length (build_graph tasks))) tasks = Some cs.
Proof.
  rewrite detect_with_fuel_start. set (graph := build_graph tasks).
  destruct (for_each_returns (start graph (S (length graph)))
              (fun _ => True) (map fst graph) (mkState [] ∅ ∅)) as [s ->];
    [|done|simpl; eauto].
  intros s x Hx _. unfold start. case_decide; [|eauto].
  destruct (dfs_enough_fuel graph (S (length graph)) x [] s Hx) as [s' ->]; [|eauto].
  pose proof (graph_keys_size graph).
  pose proof (subseteq_size (graph_keys graph ∖ visited s) (graph_keys graph)
                ltac:(set_solver)). lia.
Qed.


(** *** The recursion limit

    With room for [limit] nested calls of [dfs] the search either returns
    what it returns on a deeper stack, or runs out of room. *)






(** A chain of three tasks takes three nested calls: with room for two
    the search runs out of room, with room for three it returns. *)
Lemma chain_needs_three_frames :
  detect_with_fuel 2 chain_of_three = None
  ∧ detect_with_fuel 3 chain_of_three = Some [].
Proof. split; vm_compute; reflexivity. Qed.

(** *** The adjacency dict *)

Lemma build_graph_fold (tasks : list Task) :
  build_graph tasks = fold_left graph_step tasks [].
Proof. reflexivity. Qed.


Lemma dict_get_set_eq (k : node_t) (v : list Z) (g : graph_t) :
  dict_get k (dict_set k v g) = v.
Proof.
  induction g as [|[k' v'] g IH]; simpl.
  - by rewrite decide_True.
  - destruct (decide (k = k')) as [->|Hne]; simpl.
    + by rewrite decide_True.
    + by rewrite decide_False.
Qed.

Lemma dict_get_set_ne (k k' : node_t) (v : list Z) (g : graph_t) :
  k ≠ k' → dict_get k (dict_set k' v g) = dict_get k g.
Proof.
  intros Hne. induction g as [|[k0 v0] g IH]; simpl.
  - by rewrite decide_False.
  - destruct (decide (k' = k0)) as [->|Hne']; simpl.
    + by rewrite !decide_False.
    + destruct (decide (k = k0)); [done | apply IH].
Qed.

Lemma dict_set_keys (k k' : node_t) (v : list Z) (g : graph_t) :
  k ∈ map fst (dict_set k' v g) ↔ k = k' ∨ k ∈ map fst g.
Proof.
  induction g as [|[k0 v0] g IH]; simpl.
  - set_solver.
  - destruct (decide (k' = k0)) as [->|Hne]; simpl; set_solver.
Qed.

Section BuildGraph.

Context (k : node_t).




End BuildGraph.



(** ** Null and non-numeric fields in the suggestions *)

Lemma reason_raises_on_null_importance env (task : ScoredTask) (rank : Z) :
  importance (s_task task) = Some PNone →
  generate_suggestion_reason env task rank = Raise TypeError.
Proof. unfold generate_suggestion_reason. by intros ->. Qed.

(** C3, at a failing input.  For a task whose importance is null the
    scorer, the explanation and the analysis degrade to the default and
    return, but [get_suggestions] raises [TypeError]: the comparison
    [importance >= 8] in [generate_suggestion_reason] is applied to
    [None]. *)
Theorem suggestions_raise_on_null_importance (env : Env) :
  (∃ s, calculate_priority_score env null_importance_task
          (Some [null_importance_task]) "smart_balance" = Ok s)
  ∧ (∃ e, get_score_explanation env null_importance_task
            (Some [null_importance_task]) "smart_balance" = Ok e)
  ∧ (∃ r, analyze_tasks env [null_importance_task] "smart_balance" = Ok r)
  ∧ get_suggestions env [null_importance_task] "smart_balance" 3 = Raise TypeError.
Proof.
  split; [eexists; vm_compute; reflexivity|].
  split; [eexists; vm_compute; reflexivity|].
  split; [eexists; vm_compute; reflexivity|].
  vm_compute. reflexivity.
Qed.

(** * Further properties *)

(** ** Cycle detection reports only cycles *)

Lemma chain_app_r (graph : graph_t) (l1 l2 : list node_t) :
  chain graph (l1 ++ l2) → chain graph l2.
Proof.
  induction l1 as [|a l1 IH]; [done|]. intros H. apply IH.
  simpl in H. destruct (l1 ++ l2); [done | by destruct H].
Qed.

Lemma chain_snoc (graph : graph_t) (l : list node_t) (a b : node_t) :
  chain graph (l ++ [a]) → edge graph a b → chain graph ((l ++ [a]) ++ [b]).
Proof.
  intros H Hab. induction l as [|x l IH]; simpl in *; [done|].
  destruct (l ++ [a]) as [|y l'] eqn:E; [by destruct l|].
  destruct H as [Hxy H]. split; [done|]. by apply IH.
Qed.

Lemma index_of_split {A : Type} `{EqDecision A} (x : A) (l : list A) :
  x ∈ l → ∃ l1 l2, l = l1 ++ x :: l2 ∧ drop (index_of x l) l = x :: l2.
Proof.
  induction l as [|y l IH]; intros H; [by apply elem_of_nil in H|].
  simpl. destruct (decide (x = y)) as [->|Hne].
  - by exists [], l.
  - apply elem_of_cons in H as [H|H]; [done|].
    destruct (IH H) as (l1 & l2 & -> & Hd). exists (y :: l1), l2. by split.
Qed.

Section Soundness.

Context (graph : graph_t).

Lemma recorded_cycle_simple (node : node_t) (path : list node_t) :
  node ∈ path → chain graph (path ++ [node]) → NoDup path →
  simple_cycle graph (drop (index_of node path) path ++ [node]).
Proof.
  intros Hin Hchain Hnd.
  destruct (index_of_split node path Hin) as (l1 & l2 & Hpath & ->).
  exists node, l2. split; [done|]. rewrite Hpath in Hchain, Hnd. split.
  - rewrite <- app_assoc in Hchain. by apply chain_app_r in Hchain.
  - by apply NoDup_app in Hnd as (_ & _ & Hnd).
Qed.

Lemma dfs_sound (fuel : nat) (node : node_t) (path : list node_t)
    (st st' : dfs_state) :
  dfs fuel graph node path st = Some st' →
  chain graph (path ++ [node]) → NoDup path →
  (∀ x, x ∈ path → x ∈ rec_stack st) →
  Forall (simple_cycle graph) (cycles st) →
  Forall (simple_cycle graph) (cycles st').
Proof.
  revert node path st st'.
  induction fuel as [|fuel IH]; intros node path st st' H Hchain Hnd Hpath Hst; [done|].
  rewrite dfs_S in H.
  destruct (decide (node ∈ rec_stack st)) as [Hrec|Hrec].
  { destruct (decide (node ∈ path)); injection H as <-; [|done]. simpl.
    apply Forall_app. split; [done|]. apply Forall_singleton.
    by apply recorded_cycle_simple. }
  destruct (decide (node ∈ visited st)) as [Hvis|Hvis].
  { by injection H as <-. }
  set (st1 := mkState (cycles st) ({[node]} ∪ visited st) ({[node]} ∪ rec_stack st)) in H.
  destruct (for_each _ _ st1) as [s|] eqn:E; simpl in H; [|done].
  injection H as <-. simpl.
  apply (for_each_preserves _
           (fun s0 => extends st1 s0 ∧ Forall (simple_cycle graph) (cycles s0))) in E.
  - by destruct E.
  - intros s0 x s1 Hx [Hext Hs0] Hcall. split.
    + eapply extends_trans; [exact Hext|]. by eapply explore_extends.
    + unfold explore, dict_mem in Hcall.
      destruct (bool_decide (Some x ∈ map fst graph)) eqn:Hkey.
      * apply bool_decide_eq_true in Hkey.
        eapply IH; [exact Hcall| | | |done].
        -- apply chain_snoc; [done|]. by exists x.
        -- apply NoDup_app. split; [done|]. split; [|apply NoDup_singleton].
           intros y Hy Hy'. apply list_elem_of_singleton in Hy' as ->.
           apply Hrec. by apply Hpath.
        -- destruct Hext as (R & _ & _). intros y Hy. rewrite R. simpl.
           apply elem_of_app in Hy as [Hy|Hy]; [|set_solver].
           apply Hpath in Hy. set_solver.
      * by injection Hcall as <-.
  - split; [apply extends_refl | done].
Qed.

Lemma starts_sound (fuel : nat) (l : list node_t) (st st' : dfs_state) :
  for_each (start graph fuel) l st = Some st' →
  rec_stack st = ∅ →
  Forall (simple_cycle graph) (cycles st) →
  Forall (simple_cycle graph) (cycles st').
Proof.
  intros H Hrec Hst.
  apply (for_each_preserves _
           (fun s0 => rec_stack s0 = ∅ ∧ Forall (simple_cycle graph) (cycles s0))) in H.
  - by destruct H.
  - intros s0 x s1 _ [Hr Hs0] Hcall. unfold start in Hcall. case_decide.
    + split.
      * apply dfs_extends in Hcall as (R & _ & _). congruence.
      * eapply dfs_sound; [exact Hcall|done|apply NoDup_nil_2| |done].
        intros y Hy. by apply elem_of_nil in Hy.
    + by injection Hcall as <-.
  - done.
Qed.

End Soundness.

Lemma detect_cycles_simple (tasks : list Task) :
  Forall (simple_cycle (build_graph tasks)) (detect_circular_dependencies tasks).
Proof.
  unfold detect_circular_dependencies.
  destruct (detect_returns tasks) as [cs Hcs]. rewrite Hcs. simpl.
  rewrite detect_with_fuel_start in Hcs.
  destruct (for_each _ _ _) as [s|] eqn:E; simpl in Hcs; [|done].
  injection Hcs as <-. eapply starts_sound; [exact E|done|]. simpl. constructor.
Qed.

(** ** Cycle detection misses no cyclic graph *)



Section Completeness.

Context (graph : graph_t).





End Completeness.



(** X1.  Every cycle that [detect_circular_dependencies] reports is a
    cycle of the dependency graph: a list that starts and ends with the
    same id, in which every id lists the next one among its dependencies
    (each of them the id of a task of the list), and which passes through
    no id twice. *)
Theorem reported_cycles_are_cycles (tasks : list Task) (c : list node_t) :
  c ∈ detect_circular_dependencies tasks → simple_cycle (build_graph tasks) c.
Proof.
  intros H. pose proof (detect_cycles_simple tasks) as Hall.
  by apply (proj1 (Forall_forall _ _) Hall).
Qed.


(** ** The adjacency dict *)

Lemma build_graph_snoc (tasks : list Task) (t : Task) :
  build_graph (tasks ++ [t]) = graph_step (build_graph tasks) t.
Proof. rewrite !build_graph_fold. by rewrite fold_left_app. Qed.

Lemma dict_set_NoDup (k : node_t) (v : list Z) (g : graph_t) :
  NoDup (map fst g) → NoDup (map fst (dict_set k v g)).
Proof.
  induction g as [|[k0 v0] g IH]; simpl; intros H.
  - apply NoDup_singleton.
  - apply NoDup_cons in H as [Hk0 H].
    destruct (decide (k = k0)) as [->|Hne]; simpl.
    + by apply NoDup_cons.
    + apply NoDup_cons. split; [|by apply IH].
      intros [->|Hin]%dict_set_keys; done.
Qed.

Lemma dict_get_absent (k : node_t) (g : graph_t) :
  k ∉ map fst g → dict_get k g = [].
Proof.
  induction g as [|[k0 v0] g IH]; simpl; intros H; [done|].
  rewrite decide_False by set_solver. apply IH. set_solver.
Qed.

Lemma build_graph_keys (tasks : list Task) (k : node_t) :
  k ∈ map fst (build_graph tasks) ↔ ∃ t, t ∈ tasks ∧ id t = k.
Proof.
  induction tasks as [|t tasks IH] using rev_ind.
  - split; [by intros H%elem_of_nil | by intros (t & H%elem_of_nil & _)].
  - rewrite build_graph_snoc. unfold graph_step. rewrite dict_set_keys, IH. split.
    + intros [->|(t' & Ht' & Hk)]; [exists t | exists t']; set_solver.
    + intros (t' & [Ht'| ->%list_elem_of_singleton]%elem_of_app & Hk); [right|left]; eauto.
Qed.

Lemma build_graph_get (tasks : list Task) (k : node_t) :
  dict_get k (build_graph tasks)
  = match last (filter (fun t => id t = k) tasks) with
    | Some t => graph_deps t
    | None => []
    end.
Proof.
  induction tasks as [|t tasks IH] using rev_ind; [done|].
  rewrite build_graph_snoc, filter_app, filter_cons, filter_nil. unfold graph_step.
  destruct (decide (id t = k)) as [<-|Hne].
  - by rewrite dict_get_set_eq, last_snoc.
  - rewrite dict_get_set_ne by done. by rewrite app_nil_r.
Qed.

Lemma last_filter_unique {A : Type} (P : A → Prop) `{∀ x, Decision (P x)}
    (l : list A) (x : A) :
  x ∈ l → P x → (∀ y, y ∈ l → P y → y = x) → last (filter P l) = Some x.
Proof.
  intros Hin HP Huniq.
  assert (Hall : Forall (fun y => y = x) (filter P l)).
  { apply Forall_forall. intros y [Hy HPy]%list_elem_of_filter. by apply Huniq. }
  assert (Hne : filter P l ≠ []).
  { intros Hnil. assert (x ∈ filter P l) as Hx by by apply list_elem_of_filter.
    rewrite Hnil in Hx. by apply elem_of_nil in Hx. }
  induction (filter P l) as [|y l' IH]; [done|].
  apply Forall_cons in Hall as [-> Hall].
  destruct l' as [|z l'']; [done|]. by apply IH.
Qed.

(** X3.  The adjacency dict has one key per distinct task id, the ids of
    the tasks and nothing else, and the entry of an id is the dependency
    list of the last task that carries it (the empty list when that task's
    dependencies are absent, null or not a list); an id carried by no task
    has no entry. *)
Theorem graph_of_tasks (tasks : list Task) :
  NoDup (map fst (build_graph tasks))
  ∧ (∀ k, k ∈ map fst (build_graph tasks) ↔ ∃ t, t ∈ tasks ∧ id t = k)
  ∧ (∀ k, dict_get k (build_graph tasks)
          = match last (filter (fun t => id t = k) tasks) with
            | Some t => match get (dependencies t) with PList l => l | _ => [] end
            | None => []
            end).
Proof.
  split; [|split].
  - induction tasks as [|t tasks IH] using rev_ind; [apply NoDup_nil_2|].
    rewrite build_graph_snoc. by apply dict_set_NoDup.
  - apply build_graph_keys.
  - intros k. rewrite build_graph_get.
    destruct (last _) as [t|]; [|done]. apply task_dependencies_spec.
Qed.

(** ** Tasks on a cycle *)

Lemma chain_successor (graph : graph_t) (l1 l2 : list node_t) (x : node_t) :
  chain graph (l1 ++ x :: l2) → l2 ≠ [] → ∃ y, edge graph x y.
Proof.
  intros H%chain_app_r Hl2. destruct l2 as [|y l2]; [done|].
  destruct H as [H _]. eauto.
Qed.

Lemma cycle_node_has_dependency (graph : graph_t) (c : list node_t) (x : node_t) :
  simple_cycle graph c → x ∈ c → dict_get x graph ≠ [].
Proof.
  intros (a & mid & -> & Hchain & _) Hx.
  assert (Hx' : x ∈ a :: mid).
  { rewrite app_comm_cons in Hx. apply elem_of_app in Hx as [Hx|Hx]; [done|].
    apply list_elem_of_singleton in Hx as ->. by left. }
  apply list_elem_of_split in Hx' as (l1 & l2 & Hsplit).
  rewrite app_comm_cons, Hsplit, <- app_assoc, <- app_comm_cons in Hchain.
  destruct (chain_successor graph l1 (l2 ++ [a]) x Hchain) as (y & z & _ & Hz & _).
  { by destruct l2. }
  intros Hnil. rewrite Hnil in Hz. by apply elem_of_nil in Hz.
Qed.

(** X4.  A task that lies on a reported cycle is scored as blocked: when
    its id occurs in a cycle that [detect_circular_dependencies] reports
    and no other task carries that id, its dependency score is 20 with
    respect to every task set. *)
Theorem task_on_cycle_scores_20
    (tasks all_tasks : list Task) (task : Task) (z : Z) (c : list node_t) :
  c ∈ detect_circular_dependencies tasks →
  Some z ∈ c →
  task ∈ tasks →
  id task = Some z →
  (∀ t, t ∈ tasks → id t = Some z → t = task) →
  (calculate_dependency_score task all_tasks).1 = Fin 20.
Proof.
  intros Hc Hz Hin Hid Huniq.
  pose proof (detect_cycles_simple tasks) as Hall.
  pose proof (proj1 (Forall_forall _ _) Hall c Hc) as Hcycle.
  pose proof (cycle_node_has_dependency _ c (Some z) Hcycle Hz) as Hdeps.
  rewrite build_graph_get in Hdeps.
  rewrite (last_filter_unique _ tasks task Hin Hid Huniq) in Hdeps.
  unfold calculate_dependency_score.
  change (task_dependencies task) with (graph_deps task).
  destruct (graph_deps task) as [|d l]; [done|]. reflexivity.
Qed.

(** ** Monotonicity of the priority score *)

Lemma Qround_half_even_mono (x y : Q) :
  (x <= y)%Q → Qround_half_even x <= Qround_half_even y.
Proof.
  intros Hxy.
  pose proof (Qfloor_resp_le x y Hxy) as Hfl.
  pose proof (Qround_half_even_bounds x (Qfloor x) (Qfloor x + 1)) as Hx.
  pose proof (Qround_half_even_bounds y (Qfloor y) (Qfloor y + 1)) as Hy.
  pose proof (Qfloor_le x). pose proof (Qlt_floor x).
  pose proof (Qfloor_le y). pose proof (Qlt_floor y).
  destruct Hx as [Hx1 Hx2]; [split; [done | by apply Qlt_le_weak]|].
  destruct Hy as [Hy1 Hy2]; [split; [done | by apply Qlt_le_weak]|].
  destruct (Z.eq_dec (Qfloor x) (Qfloor y)) as [Heq|Hne]; [|lia].
  unfold Qround_half_even. rewrite <- Heq.
  set (f := Qfloor x) in *.
  destruct (x - inject_Z f ?= 1 # 2)%Q eqn:Ex, (y - inject_Z f ?= 1 # 2)%Q eqn:Ey;
    repeat match goal with
           | E : (_ ?= _)%Q = Eq |- _ => apply Qeq_alt in E
           | E : (_ ?= _)%Q = Lt |- _ => apply Qlt_alt in E
           | E : (_ ?= _)%Q = Gt |- _ => apply Qgt_alt in E
           end;
    try destruct (Z.even f); try lia; exfalso; lra.
Qed.

Lemma py_round_mono (a b : pyfloat) (ndigits : nat) :
  is_finite a → is_finite b → fle a b → fle (py_round a ndigits) (py_round b ndigits).
Proof.
  destruct a as [x| | |], b as [y| | |]; try done. intros _ _ Hle%Qle_bool_iff.
  unfold fle. simpl. apply Qle_bool_iff.
  set (s := inject_Z (10 ^ Z.of_nat ndigits)).
  assert (Hs : (0 < s)%Q).
  { unfold s. rewrite <- (Zlt_Qlt 0). apply Z.pow_pos_nonneg; lia. }
  assert (Hr : (inject_Z (Qround_half_even (x * s))
                <= inject_Z (Qround_half_even (y * s)))%Q).
  { rewrite <- Zle_Qle. apply Qround_half_even_mono.
    apply Qmult_le_compat_r; [done | by apply Qlt_le_weak]. }
  apply Qle_shift_div_l; [done|].
  unfold Qdiv. rewrite <- Qmult_assoc, (Qmult_comm (/ s)), Qmult_inv_r, Qmult_1_r; [done|].
  intros H0. rewrite H0 in Hs. by apply Qlt_irrefl in Hs.
Qed.

Lemma blend_mono (w : Weights) (u1 i1 e1 d1 u2 i2 e2 d2 : Q) :
  convex w →
  (u1 <= u2)%Q → (i1 <= i2)%Q → (e1 <= e2)%Q → (d1 <= d2)%Q →
  ∃ t1 t2,
    fadd (fadd (fadd (fmul (Fin u1) (w_urgency w)) (fmul (Fin i1) (w_importance w)))
               (fmul (Fin e1) (w_effort w)))
         (fmul (Fin d1) (w_dependencies w)) = Fin t1
    ∧ fadd (fadd (fadd (fmul (Fin u2) (w_urgency w)) (fmul (Fin i2) (w_importance w)))
                 (fmul (Fin e2) (w_effort w)))
           (fmul (Fin d2) (w_dependencies w)) = Fin t2
    ∧ (t1 <= t2)%Q.
Proof.
  intros (a & b & c & k & -> & Ha & Hb & Hc & Hk & _) Hu Hi He Hd. simpl.
  do 2 eexists. split; [reflexivity|]. split; [reflexivity|]. nra.
Qed.

Lemma fle_finite_l (a b : pyfloat) : is_finite b → fle a b → a ≠ NaN.
Proof. by destruct a, b. Qed.

(** The blend of the four scores, rounded: it does not fall when no score
    falls. *)
Lemma priority_score_mono env (t1 t2 : Task) (all1 all2 : option (list Task))
    (strategy : string) (s1 s2 : pyfloat) :
  calculate_priority_score env t1 all1 strategy = Ok s1 →
  calculate_priority_score env t2 all2 strategy = Ok s2 →
  score_le (calculate_urgency_score env t1) (calculate_urgency_score env t2) →
  score_le (calculate_importance_score env t1) (calculate_importance_score env t2) →
  score_le (calculate_effort_score env t1) (calculate_effort_score env t2) →
  fle (calculate_dependency_score t1 (default [] all1)).1
      (calculate_dependency_score t2 (default [] all2)).1 →
  fle s1 s2.
Proof.
  intros H1 H2 Hu Hi He Hd.
  destruct (urgency_score_range env t1) as (u1 & ue1 & Eu1 & Ru1).
  destruct (urgency_score_range env t2) as (u2 & ue2 & Eu2 & Ru2).
  specialize (Hu _ _ _ _ Eu1 Eu2).
  pose proof (importance_score_range env t1) as Ri1.
  pose proof (importance_score_range env t2) as Ri2.
  destruct (calculate_importance_score env t1) as [[i1 ie1]|] eqn:Ei1;
    [|by unfold calculate_priority_score in H1; rewrite Eu1, Ei1 in H1].
  destruct (calculate_importance_score env t2) as [[i2 ie2]|] eqn:Ei2;
    [|by unfold calculate_priority_score in H2; rewrite Eu2, Ei2 in H2].
  specialize (Hi _ _ _ _ eq_refl eq_refl).
  pose proof (effort_score_range env t1) as Re1.
  pose proof (effort_score_range env t2) as Re2.
  destruct (calculate_effort_score env t1) as [[e1 ee1]|] eqn:Ee1;
    [|by unfold calculate_priority_score in H1; rewrite Eu1, Ei1, Ee1 in H1].
  destruct (calculate_effort_score env t2) as [[e2 ee2]|] eqn:Ee2;
    [|by unfold calculate_priority_score in H2; rewrite Eu2, Ei2, Ee2 in H2].
  specialize (He _ _ _ _ eq_refl eq_refl).
  pose proof (dependency_score_range t1 (default [] all1)) as Rd1.
  pose proof (dependency_score_range t2 (default [] all2)) as Rd2.
  destruct (calculate_dependency_score t1 (default [] all1)) as [d1 de1] eqn:Ed1.
  destruct (calculate_dependency_score t2 (default [] all2)) as [d2 de2] eqn:Ed2.
  simpl in Ri1, Ri2, Re1, Re2, Rd1, Rd2, Hd.
  destruct i1 as [i1| | |], i2 as [i2| | |], e1 as [e1| | |], e2 as [e2| | |],
    d1 as [d1| | |], d2 as [d2| | |]; try done.
  apply Qle_bool_iff in Hu, Hi, He, Hd.
  destruct (blend_mono (strategy_weights strategy) u1 i1 e1 d1 u2 i2 e2 d2
              (strategy_weights_convex strategy) Hu Hi He Hd) as (x & y & Ex & Ey & Hxy).
  unfold calculate_priority_score in H1, H2.
  rewrite Eu1, Ei1, Ee1 in H1. rewrite Eu2, Ei2, Ee2 in H2.
  cbn [mbind result_bind mret result_ret] in H1, H2.
  rewrite Ed1, Ex in H1. rewrite Ed2, Ey in H2.
  injection H1 as <-. injection H2 as <-.
  apply (py_round_mono (Fin x) (Fin y) 2); [done|done|]. by apply Qle_bool_iff.
Qed.

Lemma score_le_refl_eq (r1 r2 : result (pyfloat * string)) (lo hi : Q) :
  r1 = r2 → ok_or_overflow (fun r => in_range lo hi r.1) r1 → score_le r1 r2.
Proof.
  intros <- Hr a e1 b e2 E1 E2. rewrite E1 in E2. injection E2 as <- <-.
  rewrite E1 in Hr. simpl in Hr. destruct a; try done. apply Qle_bool_iff. lra.
Qed.

Lemma urgency_depends_on_due_date env (t1 t2 : Task) :
  due_date t1 = due_date t2 →
  calculate_urgency_score env t1 = calculate_urgency_score env t2.
Proof. unfold calculate_urgency_score. by intros ->. Qed.

Lemma importance_depends_on_importance env (t1 t2 : Task) :
  importance t1 = importance t2 →
  calculate_importance_score env t1 = calculate_importance_score env t2.
Proof. unfold calculate_importance_score, effective_importance. by intros ->. Qed.

Lemma effort_depends_on_hours env (t1 t2 : Task) :
  estimated_hours t1 = estimated_hours t2 →
  calculate_effort_score env t1 = calculate_effort_score env t2.
Proof. unfold calculate_effort_score, effective_hours. by intros ->. Qed.

Lemma dependency_depends_on_id_and_dependencies (t1 t2 : Task) (all_tasks : list Task) :
  id t1 = id t2 → dependencies t1 = dependencies t2 →
  calculate_dependency_score t1 all_tasks = calculate_dependency_score t2 all_tasks.
Proof.
  unfold calculate_dependency_score, task_dependencies. by intros -> ->.
Qed.

Lemma urgency_score_le_self env (t1 t2 : Task) :
  due_date t1 = due_date t2 →
  score_le (calculate_urgency_score env t1) (calculate_urgency_score env t2).
Proof.
  intros H. apply (score_le_refl_eq _ _ 10 100).
  - by apply urgency_depends_on_due_date.
  - destruct (urgency_score_range env t1) as (u & ue & -> & Hu). done.
Qed.

Lemma importance_score_le_self env (t1 t2 : Task) :
  importance t1 = importance t2 →
  score_le (calculate_importance_score env t1) (calculate_importance_score env t2).
Proof.
  intros H. apply (score_le_refl_eq _ _ 10 100).
  - by apply importance_depends_on_importance.
  - apply importance_score_range.
Qed.

Lemma effort_score_le_self env (t1 t2 : Task) :
  estimated_hours t1 = estimated_hours t2 →
  score_le (calculate_effort_score env t1) (calculate_effort_score env t2).
Proof.
  intros H. apply (score_le_refl_eq _ _ 10 100).
  - by apply effort_depends_on_hours.
  - apply effort_score_range.
Qed.

Lemma dependency_score_le_self (t1 t2 : Task) (all_tasks : list Task) :
  id t1 = id t2 → dependencies t1 = dependencies t2 →
  fle (calculate_dependency_score t1 all_tasks).1
      (calculate_dependency_score t2 all_tasks).1.
Proof.
  intros Hid Hd. rewrite (dependency_depends_on_id_and_dependencies t1 t2) by done.
  pose proof (dependency_score_range t2 all_tasks) as Hr.
  destruct (calculate_dependency_score t2 all_tasks).1; try done.
  apply Qle_bool_iff. lra.
Qed.

(** The importance score, as a function of the clamped rating. *)
Lemma importance_score_value env task :
  match effective_importance env task with
  | Ok n => ∃ expl, calculate_importance_score env task
                    = Ok (num_val (num_mul n (NInt 10)), expl)
  | Raise e => calculate_importance_score env task = Raise e
  end.
Proof.
  unfold calculate_importance_score.
  pose proof (effective_importance_cases env task) as H.
  destruct (effective_importance env task) as [n|e]; simpl in *; [|done].
  destruct H as [->|[->|[->|(q & -> & Hq)]]]; simpl;
    rewrite ?float_of_int_100 by lia; simpl; eauto.
Qed.

Lemma importance_value_mono (n1 n2 : num) :
  clamped_importance n1 → clamped_importance n2 → num_leb n1 n2 = true →
  fle (num_val (num_mul n1 (NInt 10))) (num_val (num_mul n2 (NInt 10))).
Proof.
  unfold fle.
  intros [->|[->|[->|(q1 & -> & Hq1)]]] [->|[->|[->|(q2 & -> & Hq2)]]] Hle;
    try (by vm_compute); try (by vm_compute in Hle);
    apply Qle_bool_iff in Hle; simpl in Hle; simpl;
    apply Qle_bool_iff; Q_simpl;
    change (1 * 10) with 10 in *; change (10 * 10) with 100 in *;
    change (5 * 10) with 50 in *; lra.
Qed.

(** X5.  Raising the importance never lowers the priority score: of two
    tasks that differ at most in their importance, scored against the same
    task set under the same strategy, the one whose effective (defaulted,
    clamped) importance is not smaller has a priority score that is not
    smaller. *)
Theorem higher_importance_never_lowers_priority
    (env : Env) (t1 t2 : Task) (all_tasks : option (list Task)) (strategy : string)
    (n1 n2 : num) (s1 s2 : pyfloat) :
  same_but_importance t1 t2 →
  effective_importance env t1 = Ok n1 →
  effective_importance env t2 = Ok n2 →
  num_leb n1 n2 = true →
  calculate_priority_score env t1 all_tasks strategy = Ok s1 →
  calculate_priority_score env t2 all_tasks strategy = Ok s2 →
  fle s1 s2.
Proof.
  intros (Hid & Hdue & Hhours & Hdeps) E1 E2 Hle H1 H2.
  eapply priority_score_mono; [exact H1 | exact H2 | | | |].
  - by apply urgency_score_le_self.
  - pose proof (effective_importance_cases env t1) as C1. rewrite E1 in C1.
    pose proof (effective_importance_cases env t2) as C2. rewrite E2 in C2.
    pose proof (importance_score_value env t1) as V1. rewrite E1 in V1.
    pose proof (importance_score_value env t2) as V2. rewrite E2 in V2.
    destruct V1 as [x1 V1], V2 as [x2 V2]. intros a e1 b e2 Ha Hb.
    rewrite V1 in Ha. rewrite V2 in Hb. injection Ha as <- _. injection Hb as <- _.
    by apply importance_value_mono.
  - by apply effort_score_le_self.
  - by apply dependency_score_le_self.
Qed.

(** X6.  An earlier due date never lowers the priority score: of two
    tasks that differ at most in their due date, both dates parsable, the
    one due no later has a priority score that is not smaller. *)
Theorem earlier_due_date_never_lowers_priority
    (env : Env) (t1 t2 : Task) (all_tasks : option (list Task)) (strategy : string)
    (d1 d2 : Z) (s1 s2 : pyfloat) :
  same_but_due_date t1 t2 →
  days_until_due env t1 = Some d1 →
  days_until_due env t2 = Some d2 →
  d1 <= d2 →
  calculate_priority_score env t1 all_tasks strategy = Ok s1 →
  calculate_priority_score env t2 all_tasks strategy = Ok s2 →
  fle s2 s1.
Proof.
  intros (Hid & Himp & Hhours & Hdeps) E1 E2 Hle H1 H2.
  eapply priority_score_mono; [exact H2 | exact H1 | | | |].
  - destruct (urgency_score_table env t1) as [x1 V1].
    destruct (urgency_score_table env t2) as [x2 V2].
    rewrite E1 in V1. rewrite E2 in V2. intros a e1 b e2 Ha Hb.
    rewrite V2 in Ha. rewrite V1 in Hb. injection Ha as <- _. injection Hb as <- _.
    apply Qle_bool_iff. rewrite <- Zle_Qle. by apply urgency_table_antitone.
  - by apply importance_score_le_self.
  - by apply effort_score_le_self.
  - by apply dependency_score_le_self.
Qed.

(** X7.  Fewer estimated hours never lower the priority score: of two
    tasks that differ at most in their estimated hours, the one whose
    effective (defaulted, floored) hours are not larger has a priority
    score that is not smaller. *)
Theorem fewer_hours_never_lower_priority
    (env : Env) (t1 t2 : Task) (all_tasks : option (list Task)) (strategy : string)
    (h1 h2 : num) (s1 s2 : pyfloat) :
  same_but_hours t1 t2 →
  effective_hours env t1 = Ok h1 →
  effective_hours env t2 = Ok h2 →
  num_leb h1 h2 = true →
  calculate_priority_score env t1 all_tasks strategy = Ok s1 →
  calculate_priority_score env t2 all_tasks strategy = Ok s2 →
  fle s2 s1.
Proof.
  intros (Hid & Himp & Hdue & Hdeps) E1 E2 Hle H1 H2.
  eapply priority_score_mono; [exact H2 | exact H1 | | | |].
  - by apply urgency_score_le_self.
  - by apply importance_score_le_self.
  - pose proof (effective_hours_cases env t1) as C1. rewrite E1 in C1.
    pose proof (effective_hours_cases env t2) as C2. rewrite E2 in C2.
    pose proof (effort_score_value env t1) as V1. rewrite E1 in V1.
    pose proof (effort_score_value env t2) as V2. rewrite E2 in V2.
    destruct V1 as [x1 V1], V2 as [x2 V2]. intros a e1 b e2 Ha Hb.
    rewrite V2 in Ha. rewrite V1 in Hb. injection Ha as <- _. injection Hb as <- _.
    by apply effort_value_antitone.
  - by apply dependency_score_le_self.
Qed.

Lemma dependency_score_unblocked (task : Task) (all_tasks : list Task) :
  task_dependencies task = [] →
  (calculate_dependency_score task all_tasks).1
  = Fin (dependency_table (blocking_count task all_tasks)).
Proof.
  intros Hd. unfold calculate_dependency_score.
  rewrite Hd, count_blocking_spec, <- dependency_table_spec.
  set (n := Z.of_nat (blocking_count task all_tasks)).
  simpl length. simpl (0 <? _). cbv iota.
  by destruct (3 <=? n), (n =? 2), (n =? 1).
Qed.

Lemma dependency_table_mono (m n : nat) :
  (m ≤ n)%nat → (dependency_table m <= dependency_table n)%Q.
Proof.
  intros H. destruct m as [|[|[|m]]], n as [|[|[|n]]]; simpl; try lia; lra.
Qed.

(** X8.  Blocking more tasks never lowers the priority score: for a task
    that lists no dependency, scored against two task sets, the score is
    not smaller against the set in which more tasks list its id. *)
Theorem blocking_more_never_lowers_priority
    (env : Env) (task : Task) (set1 set2 : list Task) (strategy : string)
    (s1 s2 : pyfloat) :
  task_dependencies task = [] →
  (blocking_count task set1 ≤ blocking_count task set2)%nat →
  calculate_priority_score env task (Some set1) strategy = Ok s1 →
  calculate_priority_score env task (Some set2) strategy = Ok s2 →
  fle s1 s2.
Proof.
  intros Hd Hle H1 H2.
  eapply priority_score_mono; [exact H1 | exact H2 | | | |].
  - by apply urgency_score_le_self.
  - by apply importance_score_le_self.
  - by apply effort_score_le_self.
  - simpl. rewrite !dependency_score_unblocked by done.
    apply Qle_bool_iff. by apply dependency_table_mono.
Qed.

(** ** The importance scorer, value by value *)

Lemma effective_importance_unfold env task :
  effective_importance env task
  = try_except_type_value
      (f ← py_float env (or_default (get (importance task)) 5);
       mret (py_max (NInt 1) (py_min (NInt 10) (NFloat f))))
      (NInt 5).
Proof. reflexivity. Qed.

Lemma clamp_value (f : pyfloat) :
  ∃ s, num_val (num_mul (py_max (NInt 1) (py_min (NInt 10) (NFloat f))) (NInt 10)) = Fin s
       ∧ (s == 10 * clamp_1_10 f)%Q.
Proof.
  unfold py_max, py_min, num_gtb, num_ltb, clamp_1_10.
  destruct f as [q| | |]; simpl; try (eexists; split; [reflexivity|]; by vm_compute).
  case_Q; simpl; case_Q; simpl; (eexists; split; [reflexivity|]); Q_simpl;
    change (1 * 10) with 10 in *; change (10 * 10) with 100 in *; lra.
Qed.

Lemma clamp_1_10_bounds (f : pyfloat) : (1 <= clamp_1_10 f <= 10)%Q.
Proof.
  unfold clamp_1_10. destruct f as [q| | |]; try (split; by vm_compute).
  case_Q; [split; by vm_compute | split; by vm_compute | lra].
Qed.

(** X9.  The importance score lies between 10 and 100 whenever the scorer
    returns, and for a rating whose clamped value is a whole number it is
    ten times that value: ten times the rating for the whole ratings from
    1 to 10, 10 for every rating up to 1 and for [-inf], 100 for every
    rating from 10 on and for [inf] and [nan].  A missing or null rating
    counts as 5; a value [float()] rejects (a non-numeric string, a list,
    a dict, a date) gives 50; an integer beyond the range of a float makes
    the scorer raise [OverflowError]. *)
Theorem importance_score_of_whole_rating (env : Env) (task : Task) :
  match py_float env (or_default (get (importance task)) 5) with
  | Ok f =>
      ∃ s expl, calculate_importance_score env task = Ok (Fin s, expl)
                ∧ (10 <= s <= 100)%Q
                ∧ (whole (clamp_1_10 f) → (s == 10 * clamp_1_10 f)%Q)
  | Raise OverflowError => calculate_importance_score env task = Raise OverflowError
  | Raise _ => ∃ expl, calculate_importance_score env task = Ok (Fin 50, expl)
  end.
Proof.
  pose proof (importance_score_value env task) as Hv.
  rewrite effective_importance_unfold in Hv.
  destruct (py_float env _) as [f|[]]; simpl in Hv.
  - destruct Hv as [expl Hv]. destruct (clamp_value f) as (s & Es & Hs).
    rewrite Es in Hv. exists s, expl. split; [done|].
    pose proof (clamp_1_10_bounds f). split; [lra|done].
  - destruct Hv as [expl Hv]. eauto.
  - destruct Hv as [expl Hv]. eauto.
  - done.
Qed.

(** ** The effort scorer, band by band *)

Ltac band_cases :=
  unfold effort_value, effort_curve, py_max, num_gtb, num_ltb, num_leb;
  simpl; case_Q; simpl; case_Q; simpl; intros;
  repeat match goal with
         | H : Qle_bool _ _ = true |- _ => apply Qle_bool_iff in H
         | H : Qltb _ _ = true |- _ => apply Qltb_true in H
         | H : true = false |- _ => discriminate H
         | H : false = true |- _ => discriminate H
         end.

Lemma effort_bands (h : num) :
  floored_hours h →
  (num_leb h (NInt 1) = true → effort_value h = Fin 100)
  ∧ (num_ltb (NInt 1) h = true → num_leb h (NInt 2) = true → effort_value h = Fin 90)
  ∧ (num_ltb (NInt 2) h = true → num_leb h (NInt 4) = true →
     in_range 70 80 (effort_value h))
  ∧ (num_ltb (NInt 4) h = true → num_leb h (NInt 8) = true →
     in_range 40 70 (effort_value h))
  ∧ (num_ltb (NInt 8) h = true → num_leb h (NInt 16) = true →
     in_range 20 40 (effort_value h))
  ∧ (num_ltb (NInt 16) h = true → in_range 10 20 (effort_value h))
  ∧ (num_leb (NInt 36) h = true → effort_value h = Fin 10).
Proof.
  intros [->|[->|(q & -> & Hq)]].
  - repeat split; try (intros; discriminate); by vm_compute.
  - repeat split; try (intros; discriminate); by vm_compute.
  - repeat split; band_cases; try reflexivity; try (exfalso; Q_simpl; lra);
      Q_simpl; lra.
Qed.

(** X10.  The effort score falls in the band its docstring gives for the
    effective hours [h] (defaulted to 4, floored at 0.5), the ends of a
    band included: 100 for [h <= 1], 90 up to 2 hours, between 70 and 80
    up to 4 hours, between 40 and 70 up to 8, between 20 and 40 up to 16,
    between 10 and 20 beyond, and exactly 10 from 36 hours on. *)
Theorem effort_score_bands (env : Env) (task : Task) (h : num) (s : pyfloat)
    (expl : string) :
  effective_hours env task = Ok h →
  calculate_effort_score env task = Ok (s, expl) →
  (num_leb h (NInt 1) = true → s = Fin 100)
  ∧ (num_ltb (NInt 1) h = true → num_leb h (NInt 2) = true → s = Fin 90)
  ∧ (num_ltb (NInt 2) h = true → num_leb h (NInt 4) = true → in_range 70 80 s)
  ∧ (num_ltb (NInt 4) h = true → num_leb h (NInt 8) = true → in_range 40 70 s)
  ∧ (num_ltb (NInt 8) h = true → num_leb h (NInt 16) = true → in_range 20 40 s)
  ∧ (num_ltb (NInt 16) h = true → in_range 10 20 s)
  ∧ (num_leb (NInt 36) h = true → s = Fin 10).
Proof.
  intros Eh Es.
  pose proof (effective_hours_cases env task) as C. rewrite Eh in C.
  pose proof (effort_score_value env task) as V. rewrite Eh in V.
  destruct V as [x V]. rewrite V in Es. injection Es as <- _.
  by apply effort_bands.
Qed.

Lemma effective_hours_unfold env task :
  effective_hours env task
  = try_except_type_value
      (f ← py_float env (or_default (get (estimated_hours task)) 4);
       mret (py_max (NFloat (Fin (1 # 2))) (NFloat f)))
      (NInt 4).
Proof. reflexivity. Qed.

(** X11.  Hours that are not greater than 1 after [float()] (zero,
    negative numbers, [-inf] and [nan] included) are scored 100: the floor
    at half an hour turns every such value into a quick task. *)
Theorem hours_up_to_one_score_100 (env : Env) (task : Task) (f : pyfloat) :
  py_float env (or_default (get (estimated_hours task)) 4) = Ok f →
  fltb (Fin 1) f = false →
  ∃ expl, calculate_effort_score env task = Ok (Fin 100, expl).
Proof.
  intros Ef Hf.
  pose proof (effort_score_value env task) as V.
  rewrite effective_hours_unfold, Ef in V. simpl in V.
  destruct V as [expl V]. exists expl. rewrite V. do 2 f_equal.
  unfold py_max, num_gtb, num_ltb. destruct f as [q| | |]; simpl in *; try done.
  apply Qltb_false in Hf.
  unfold effort_value, effort_curve, num_leb. simpl.
  case_Q; simpl; case_Q; try reflexivity; exfalso; Q_simpl; lra.
Qed.

(** ** The urgency scorer: where it separates due dates *)

Lemma urgency_table_strict (d1 d2 : Z) :
  -1 <= d1 → d1 < d2 → d2 <= 34 →
  urgency_table (Some d2) < urgency_table (Some d1).
Proof.
  intros H1 H2 H3. unfold urgency_table.
  repeat match goal with
         | |- context [Z.ltb ?a ?b] => destruct (Z.ltb_spec a b)
         | |- context [Z.eqb ?a ?b] => destruct (Z.eqb_spec a b)
         | |- context [Z.leb ?a ?b] => destruct (Z.leb_spec a b)
         end; simpl; lia.
Qed.

Lemma urgency_table_far (d : Z) : 34 <= d → urgency_table (Some d) = 10.
Proof.
  intros H. unfold urgency_table.
  repeat match goal with
         | |- context [Z.ltb ?a ?b] => destruct (Z.ltb_spec a b)
         | |- context [Z.eqb ?a ?b] => destruct (Z.eqb_spec a b)
         | |- context [Z.leb ?a ?b] => destruct (Z.leb_spec a b)
         end; simpl; lia.
Qed.

(** X12.  The urgency score tells apart any two due dates between
    yesterday and 34 days ahead (the later date scores strictly less), and
    no two dates outside: every overdue task scores 100 and every task due
    34 days ahead or later scores 10. *)
Theorem urgency_separates_dates_up_to_34_days
    (env : Env) (t1 t2 : Task) (d1 d2 : Z) (s1 s2 : pyfloat) (e1 e2 : string) :
  days_until_due env t1 = Some d1 →
  days_until_due env t2 = Some d2 →
  calculate_urgency_score env t1 = Ok (s1, e1) →
  calculate_urgency_score env t2 = Ok (s2, e2) →
  (-1 <= d1 → d1 < d2 → d2 <= 34 → flt s2 s1)
  ∧ (d1 < 0 → d2 < 0 → s1 = Fin 100 ∧ s2 = Fin 100)
  ∧ (34 <= d1 → 34 <= d2 → s1 = Fin 10 ∧ s2 = Fin 10).
Proof.
  intros E1 E2 H1 H2.
  destruct (urgency_score_table env t1) as [x1 V1].
  destruct (urgency_score_table env t2) as [x2 V2].
  rewrite E1, H1 in V1. rewrite E2, H2 in V2.
  pose proof (urgency_table_strict d1 d2) as Hstrict.
  pose proof (urgency_table_overdue d1) as Ho1.
  pose proof (urgency_table_overdue d2) as Ho2.
  pose proof (urgency_table_far d1) as Hf1.
  pose proof (urgency_table_far d2) as Hf2.
  remember (urgency_table (Some d1)) as u1 eqn:Hu1.
  remember (urgency_table (Some d2)) as u2 eqn:Hu2.
  clear Hu1 Hu2 H1 H2.
  injection V1 as -> _. injection V2 as -> _.
  split; [|split].
  - intros Ha Hb Hc. unfold flt. cbn [fltb]. unfold Qltb.
    destruct (Qle_bool _ _) eqn:E; [|done].
    apply Qle_bool_iff in E. rewrite <- Zle_Qle in E.
    specialize (Hstrict Ha Hb Hc). lia.
  - intros Ha Hb. by rewrite Ho1, Ho2.
  - intros Ha Hb. by rewrite Hf1, Hf2.
Qed.

(** ** When scoring raises *)

Lemma in_float_range_or_huge (v : pyval) : in_float_range v ∨ huge_int v.
Proof.
  destruct v as [| |z| | | | | |]; try (left; intros z' Hz; discriminate Hz).
  destruct (Z.ltb_spec (Z.abs z) float_int_bound).
  - left. by intros z' [= <-].
  - right. by exists z.
Qed.

Lemma huge_int_not_in_range (v : pyval) : huge_int v → ¬ in_float_range v.
Proof. intros (z & -> & Hz) H. specialize (H z eq_refl). lia. Qed.

Lemma py_float_huge env (v : pyval) (d : Z) :
  huge_int v → py_float env (or_default v d) = Raise OverflowError.
Proof.
  intros (z & -> & Hz). simpl. unfold float_of_int.
  destruct (Z.ltb_spec (Z.abs z) float_int_bound); [lia | done].
Qed.

Lemma importance_score_huge env task :
  huge_int (get (importance task)) →
  calculate_importance_score env task = Raise OverflowError.
Proof.
  intros H. pose proof (importance_score_value env task) as V.
  rewrite effective_importance_unfold, py_float_huge in V by done. exact V.
Qed.

Lemma effort_score_huge env task :
  huge_int (get (estimated_hours task)) →
  calculate_effort_score env task = Raise OverflowError.
Proof.
  intros H. pose proof (effort_score_value env task) as V.
  rewrite effective_hours_unfold, py_float_huge in V by done. exact V.
Qed.

Lemma priority_score_huge env task all_tasks strategy :
  huge_int (get (importance task)) ∨ huge_int (get (estimated_hours task)) →
  calculate_priority_score env task all_tasks strategy = Raise OverflowError.
Proof.
  intros H. unfold calculate_priority_score.
  destruct (urgency_score_range env task) as (u & ue & -> & _). simpl.
  destruct (in_float_range_or_huge (get (importance task))) as [Hi|Hi].
  - destruct H as [H|H]; [by apply huge_int_not_in_range in H|].
    destruct (importance_score_returns env task Hi) as [[i ie] ->]. simpl.
    by rewrite effort_score_huge.
  - by rewrite importance_score_huge.
Qed.

Lemma explanation_huge env task all_tasks strategy :
  huge_int (get (importance task)) ∨ huge_int (get (estimated_hours task)) →
  get_score_explanation env task all_tasks strategy = Raise OverflowError.
Proof.
  intros H. unfold get_score_explanation.
  destruct (urgency_score_range env task) as (u & ue & -> & _). simpl.
  destruct (in_float_range_or_huge (get (importance task))) as [Hi|Hi].
  - destruct H as [H|H]; [by apply huge_int_not_in_range in H|].
    destruct (importance_score_returns env task Hi) as [[i ie] ->]. simpl.
    by rewrite effort_score_huge.
  - by rewrite importance_score_huge.
Qed.

(** X13.  [calculate_priority_score] and [get_score_explanation] fail on
    the same inputs and in the same way: both return unless the importance
    or the estimated hours is an integer beyond the range of a float, and
    then both raise [OverflowError], which the scorers' [except] clauses do
    not catch.  No other field value makes either of them raise. *)
Theorem score_and_explanation_raise_together
    (env : Env) (task : Task) (all_tasks : option (list Task)) (strategy : string) :
  (in_float_range (get (importance task))
   ∧ in_float_range (get (estimated_hours task))
   ∧ (∃ s, calculate_priority_score env task all_tasks strategy = Ok s)
   ∧ (∃ e, get_score_explanation env task all_tasks strategy = Ok e))
  ∨ ((huge_int (get (importance task)) ∨ huge_int (get (estimated_hours task)))
     ∧ calculate_priority_score env task all_tasks strategy = Raise OverflowError
     ∧ get_score_explanation env task all_tasks strategy = Raise OverflowError).
Proof.
  destruct (in_float_range_or_huge (get (importance task))) as [Hi|Hi];
    [destruct (in_float_range_or_huge (get (estimated_hours task))) as [He|He]|].
  - left. split; [done|]. split; [done|]. split.
    + by apply priority_score_returns.
    + by apply explanation_returns.
  - right. split; [by right|]. split.
    + apply priority_score_huge. by right.
    + apply explanation_huge. by right.
  - right. split; [by left|]. split.
    + apply priority_score_huge. by left.
    + apply explanation_huge. by left.
Qed.

(** ** The order of the factors in the explanation *)

Lemma strategy_weights_presets (strategy : string) :
  strategy_weights strategy
  = if decide (strategy = "quick_wins")
    then mkWeights (Fin (15 # 100)) (Fin (15 # 100)) (Fin (55 # 100)) (Fin (15 # 100))
    else if decide (strategy = "high_impact")
    then mkWeights (Fin (15 # 100)) (Fin (60 # 100)) (Fin (10 # 100)) (Fin (15 # 100))
    else if decide (strategy = "deadline_driven")
    then mkWeights (Fin (60 # 100)) (Fin (15 # 100)) (Fin (10 # 100)) (Fin (15 # 100))
    else smart_balance.
Proof.
  unfold strategy_weights. rewrite smart_balance_default.
  unfold STRATEGY_WEIGHTS. rewrite !lookup_insert, lookup_empty.
  repeat case_decide; simpl; try done; congruence.
Qed.

(** X14.  The explanation names the four factors in the order of their
    weights under the strategy, heaviest first and equal weights in the
    fixed order urgency, importance, effort, dependencies: it is four
    parts joined by [" | "], each starting with the factor's name, effort
    first under [quick_wins], importance first under [high_impact], and
    urgency, importance, dependencies, effort under every other name. *)
Theorem explanation_names_factors_by_weight
    (env : Env) (task : Task) (all_tasks : option (list Task)) (strategy : string)
    (explanation : string) :
  get_score_explanation env task all_tasks strategy = Ok explanation →
  ∃ parts,
    explanation = join " | " parts
    ∧ Forall2 (fun name part => ∃ rest, part = name +:+ ": " +:+ rest)
        (factor_order strategy) parts.
Proof.
  unfold get_score_explanation, factor_order.
  rewrite strategy_weights_presets.
  destruct (calculate_urgency_score env task) as [[u ue]|]; [|done].
  destruct (calculate_importance_score env task) as [[i ie]|]; [|done].
  destruct (calculate_effort_score env task) as [[e ee]|]; [|done].
  cbn [mbind result_bind mret result_ret].
  destruct (calculate_dependency_score task (default [] all_tasks)) as [d de].
  repeat case_decide; intros [= <-]; (eexists [_; _; _; _]; split; [reflexivity|]);
    repeat constructor; eexists; reflexivity.
Qed.

(** ** The suggestions *)

Lemma reason_of_safe_task env (task : ScoredTask) (rank : Z) :
  reason_safe task = true → ∃ s, generate_suggestion_reason env task rank = Ok s.
Proof.
  unfold reason_safe, generate_suggestion_reason. intros H.
  apply andb_prop in H as [Hi Hh].
  destruct (importance (s_task task)) as [[]|]; try done;
    destruct (estimated_hours (s_task task)) as [[]|]; try done;
    unfold get_default, py_ge_int, py_le_int; simpl;
    repeat case_match; eauto.
Qed.

Lemma reason_of_unsafe_task env (task : ScoredTask) (rank : Z) :
  reason_safe task = false → generate_suggestion_reason env task rank = Raise TypeError.
Proof.
  unfold reason_safe, generate_suggestion_reason. intros H.
  destruct (importance (s_task task)) as [[]|]; try done;
    destruct (estimated_hours (s_task task)) as [[]|]; try done.
Qed.

Lemma suggestions_of_top env (top : list ScoredTask) (start : Z) :
  if forallb reason_safe top
  then ∃ l, mapM (fun '(i, task) =>
                    reason ← generate_suggestion_reason env task i;
                    mret (mkSuggestion i task reason))
                 (enumerate start top) = Ok l
  else mapM (fun '(i, task) =>
               reason ← generate_suggestion_reason env task i;
               mret (mkSuggestion i task reason))
            (enumerate start top) = Raise TypeError.
Proof.
  revert start. induction top as [|x top IH]; intros start; [simpl; eauto|].
  cbn [forallb enumerate mapM].
  destruct (reason_safe x) eqn:Ex.
  - destruct (reason_of_safe_task env x start Ex) as [s ->].
    cbn [andb mbind result_bind mret result_ret].
    specialize (IH (start + 1)). destruct (forallb reason_safe top).
    + destruct IH as [l ->]. simpl. eauto.
    + by rewrite IH.
  - by rewrite (reason_of_unsafe_task env x start Ex).
Qed.

Lemma suggestions_of_top_shape env (top : list ScoredTask) (start : Z)
    (l : list Suggestion) :
  mapM (fun '(i, task) =>
          reason ← generate_suggestion_reason env task i;
          mret (mkSuggestion i task reason))
       (enumerate start top) = Ok l →
  sg_task <$> l = top
  ∧ (∀ i s, l !! i = Some s → sg_rank s = start + Z.of_nat i)
  ∧ Forall (fun s => generate_suggestion_reason env (sg_task s) (sg_rank s)
                     = Ok (sg_reason s)) l.
Proof.
  revert start l. induction top as [|x top IH]; intros start l H.
  - injection H as <-. repeat split; [by intros ? ? ?|constructor].
  - cbn [enumerate mapM] in H.
    destruct (generate_suggestion_reason env x start) as [reason|] eqn:Er; [|done].
    cbn [mbind result_bind mret result_ret] in H.
    destruct (mapM _ (enumerate (start + 1) top)) as [l'|] eqn:El; [|done].
    injection H as <-.
    destruct (IH _ _ El) as (Ht & Hr & Hf).
    repeat split.
    + rewrite fmap_cons. by rewrite Ht.
    + intros [|i] s Hs; simpl in Hs.
      * injection Hs as <-. simpl. lia.
      * rewrite (Hr i s Hs). lia.
    + constructor; [done|exact Hf].
Qed.

Lemma analyze_length env tasks strategy r :
  analyze_tasks env tasks strategy = Ok r → length (a_tasks r) = length tasks.
Proof.
  unfold analyze_tasks. intros H.
  destruct (mapM _ tasks) as [ys|] eqn:E; [|done].
  injection H as <-. simpl.
  rewrite (Permutation_length (sort_desc_perm _ _)).
  symmetry. exact (Forall2_length _ _ _ (mapM_Forall2 _ _ _ E)).
Qed.

Lemma slice_to_length {A : Type} (count : Z) (l : list A) :
  Z.of_nat (length (slice_to count l))
  = if 0 <=? count then Z.min count (Z.of_nat (length l))
    else Z.max 0 (Z.of_nat (length l) + count).
Proof.
  unfold slice_to. destruct (0 <=? count) eqn:E; rewrite length_take; lia.
Qed.

(** X15.  When [get_suggestions] returns, the analysis returned too, and
    the suggestions are the first [count] tasks of the analysis' ranking,
    in that order ([tasks[:count]]: a negative [count] drops that many
    from the end), ranked 1, 2, ..., each with the reason
    [generate_suggestion_reason] gives for its task and rank.  So there
    are [min count n] suggestions for [n] tasks and a [count] of 0 or
    more, and [max 0 (n + count)] for a negative one. *)
Theorem suggestions_are_the_ranked_top_tasks
    (env : Env) (tasks : list Task) (strategy : string) (count : Z)
    (l : list Suggestion) :
  get_suggestions env tasks strategy count = Ok l →
  ∃ r, analyze_tasks env tasks strategy = Ok r
     ∧ sg_task <$> l = slice_to count (a_tasks r)
     ∧ (∀ i s, l !! i = Some s → sg_rank s = Z.of_nat i + 1)
     ∧ Forall (fun s => generate_suggestion_reason env (sg_task s) (sg_rank s)
                        = Ok (sg_reason s)) l
     ∧ Z.of_nat (length l)
       = if 0 <=? count then Z.min count (Z.of_nat (length tasks))
         else Z.max 0 (Z.of_nat (length tasks) + count).
Proof.
  unfold get_suggestions. intros H.
  destruct (analyze_tasks env tasks strategy) as [r|] eqn:Er; [|done].
  cbn [mbind result_bind] in H.
  destruct (suggestions_of_top_shape env _ _ _ H) as (Ht & Hr & Hf).
  exists r. repeat split; try done.
  - intros i s Hs. rewrite (Hr i s Hs). lia.
  - rewrite <- (analyze_length env tasks strategy r Er), <- slice_to_length, <- Ht.
    by rewrite length_fmap.
Qed.

(** X16.  [get_suggestions] raises exactly what the analysis raises, and
    when the analysis returns it returns if and only if, in each of the
    top [count] tasks, importance and estimated_hours are missing or
    numbers; otherwise it raises [TypeError], whatever the analysis made
    of those fields.  A null or a non-numeric field of a task below the
    top [count] does no harm. *)
Theorem suggestions_raise_iff_a_top_task_has_a_non_number
    (env : Env) (tasks : list Task) (strategy : string) (count : Z) :
  match analyze_tasks env tasks strategy with
  | Raise e => get_suggestions env tasks strategy count = Raise e
  | Ok r =>
      if forallb reason_safe (slice_to count (a_tasks r))
      then ∃ l, get_suggestions env tasks strategy count = Ok l
      else get_suggestions env tasks strategy count = Raise TypeError
  end.
Proof.
  unfold get_suggestions.
  destruct (analyze_tasks env tasks strategy) as [r|]; [|done].
  cbn [mbind result_bind].
  apply suggestions_of_top.
Qed.

(** ** The id assignment of the analyze view *)

Lemma enumerate_lookup {A : Type} (start : Z) (l : list A) (i : nat) :
  enumerate start l !! i = (fun x => (start + Z.of_nat i, x)) <$> l !! i.
Proof.
  revert start i. induction l as [|x l IH]; intros start [|i]; try done.
  - simpl. by rewrite Z.add_0_r.
  - cbn [enumerate lookup list_lookup]. rewrite IH, Nat2Z.inj_succ.
    destruct (l !! i); simpl; [|done]. do 2 f_equal. lia.
Qed.

Lemma enumerate_length {A : Type} (start : Z) (l : list A) :
  length (enumerate start l) = length l.
Proof. revert start. induction l as [|x l IH]; intros start; simpl; [done|]. by rewrite IH. Qed.

Lemma enumerate_snoc {A : Type} (start : Z) (l : list A) (x : A) :
  enumerate start (l ++ [x]) = enumerate start l ++ [(start + Z.of_nat (length l), x)].
Proof.
  revert start. induction l as [|y l IH]; intros start.
  - simpl. by rewrite Z.add_0_r.
  - cbn [app enumerate length]. rewrite IH, Nat2Z.inj_succ.
    cbn [app]. do 4 f_equal. lia.
Qed.

Lemma enumerate_bound {A : Type} (start : Z) (l : list A) (i : Z) (x : A) :
  (i, x) ∈ enumerate start l → start <= i < start + Z.of_nat (length l).
Proof.
  intros [n Hn]%list_elem_of_lookup. rewrite enumerate_lookup in Hn.
  destruct (l !! n) as [y|] eqn:E; [|done]. injection Hn as <- <-.
  apply lookup_lt_Some in E. lia.
Qed.

(** X17.  The analyze view's id assignment keeps the number and the order
    of the tasks and every field but the id; a task that came with an id
    keeps it, and a task with no id or a null one gets its position in the
    request, counted from 1, whether or not another task already carries
    that number.  Afterwards every task has an id. *)
Theorem missing_ids_are_positions (tasks : list Task) :
  length (add_missing_ids tasks) = length tasks
  ∧ Forall (fun task => id task ≠ None) (add_missing_ids tasks)
  ∧ ∀ (i : nat) (task : Task), tasks !! i = Some task →
      ∃ task', add_missing_ids tasks !! i = Some task'
               ∧ id task' = Some (default (Z.of_nat i + 1) (id task))
               ∧ title task' = title task
               ∧ due_date task' = due_date task
               ∧ estimated_hours task' = estimated_hours task
               ∧ importance task' = importance task
               ∧ dependencies task' = dependencies task.
Proof.
  unfold add_missing_ids. split; [|split].
  - by rewrite length_map, enumerate_length.
  - apply Forall_forall. intros t [[i t0] [-> _]]%list_elem_of_fmap.
    by destruct t0 as [[z|] ? ? ? ? ?].
  - intros i task Hi. rewrite list_lookup_fmap, enumerate_lookup, Hi. simpl.
    eexists. split; [reflexivity|].
    destruct task as [[z|] ? ? ? ? ?]; simpl; repeat split; do 2 f_equal; lia.
Qed.

Lemma dict_set_absent (k : node_t) (v : list Z) (g : graph_t) :
  k ∉ map fst g → dict_set k v g = g ++ [(k, v)].
Proof.
  induction g as [|[k0 v0] g IH]; simpl; intros H; [done|].
  rewrite decide_False by set_solver. rewrite IH; [done|set_solver].
Qed.

Lemma add_missing_ids_none (tasks : list Task) (start : Z) :
  Forall (fun task => id task = None) tasks →
  map (fun '(i, task) =>
         match id task with
         | None => with_id task (i + 1)
         | Some _ => task
         end)
      (enumerate start tasks)
  = map (fun '(i, task) => with_id task (i + 1)) (enumerate start tasks).
Proof.
  intros H. revert start. induction H as [|t tasks Ht _ IH]; intros start; [done|].
  simpl. by rewrite Ht, IH.
Qed.

Lemma build_graph_positions (tasks : list Task) (start : Z) :
  build_graph (map (fun '(i, task) => with_id task (i + 1)) (enumerate start tasks))
  = map (fun '(i, task) => (Some (i + 1), graph_deps task)) (enumerate start tasks).
Proof.
  induction tasks as [|t tasks IH] using rev_ind; [done|].
  rewrite enumerate_snoc, !map_app. cbn [map]. rewrite build_graph_snoc, IH.
  unfold graph_step. rewrite dict_set_absent; [done|].
  cbn [id with_id]. rewrite map_map.
  intros [[i t0] [Heq Hin]]%list_elem_of_fmap. simpl in Heq.
  apply enumerate_bound in Hin. injection Heq as Heq. lia.
Qed.

(** X18.  For a request in which no task carries an id, the id assignment
    of the analyze view makes the adjacency dict of the cycle detection
    the list of the request's tasks in order: the k-th task is node k, and
    its neighbours are its own dependency list, so in such a request a
    dependency number means a position. *)
Theorem graph_of_request_without_ids (tasks : list Task) :
  Forall (fun task => id task = None) tasks →
  build_graph (add_missing_ids tasks)
  = map (fun '(i, task) => (Some (i + 1), graph_deps task)) (enumerate 0 tasks).
Proof.
  intros H. unfold add_missing_ids.
  rewrite (add_missing_ids_none tasks 0 H). apply build_graph_positions.
Qed.

(** ** A number beyond the range of a float *)

Lemma analyze_huge env (tasks : list Task) (strategy : string) (r : Analysis) :
  Exists (fun task => huge_int (get (importance task))
                      ∨ huge_int (get (estimated_hours task))) tasks →
  analyze_tasks env tasks strategy ≠ Ok r.
Proof.
  intros (task & Hin & Hhuge)%Exists_exists E.
  unfold analyze_tasks in E.
  destruct (mapM _ tasks) as [ys|] eqn:Em; [|done].
  apply mapM_Forall2 in Em.
  apply list_elem_of_lookup in Hin as [i Hi].
  destruct (Forall2_lookup_l _ _ _ _ _ Em Hi) as (y & _ & Hy).
  unfold score_task in Hy.
  by rewrite (priority_score_huge env task (Some tasks) _ Hhuge) in Hy.
Qed.

(** X19.  An integer beyond the range of a float anywhere in the list
    makes the whole analysis fail: when some task's importance or
    estimated hours is such an integer, [analyze_tasks] returns under no
    strategy and [get_suggestions] returns for no [count], also when the
    offending task would not be among the top [count]. *)
Theorem huge_number_fails_the_whole_analysis
    (env : Env) (tasks : list Task) (strategy : string) :
  Exists (fun task => huge_int (get (importance task))
                      ∨ huge_int (get (estimated_hours task))) tasks →
  (∀ r, analyze_tasks env tasks strategy ≠ Ok r)
  ∧ (∀ count l, get_suggestions env tasks strategy count ≠ Ok l).
Proof.
  intros H. split; [intros r; by apply analyze_huge|].
  intros count l Hl. unfold get_suggestions in Hl.
  destruct (analyze_tasks env tasks strategy) as [r|e] eqn:Er; [|done].
  by apply (analyze_huge env tasks strategy r H).
Qed.

(** ** A task that blocks others is told so in its suggestion *)

Lemma prefix_app_l (sub a b : string) :
  String.prefix sub a = true → String.prefix sub (a +:+ b) = true.
Proof.
  revert a. induction sub as [|x sub' IH]; intros a.
  - by destruct a, b.
  - destruct a as [|y a]; [done|]. simpl.
    destruct (ascii_dec x y); [apply IH | done].
Qed.

Lemma contains_app_l (sub a b : string) :
  contains sub a = true → contains sub (a +:+ b) = true.
Proof.
  induction a as [|c a IH].
  - destruct sub; simpl; [by destruct b | done].
  - change (String c a +:+ b) with (String c (a +:+ b)). cbn [contains].
    destruct (String.prefix sub (String c a)) eqn:E.
    + intros _. pose proof (prefix_app_l _ _ b E) as E'.
      change (String c a +:+ b) with (String c (a +:+ b)) in E'. by rewrite E'.
    + intros H.
      destruct (String.prefix sub (String c (a +:+ b))); [done | by apply IH].
Qed.

Lemma contains_app_r (sub a b : string) :
  contains sub b = true → contains sub (a +:+ b) = true.
Proof.
  intros H. induction a as [|c a IH]; [done|].
  change (String c a +:+ b) with (String c (a +:+ b)). cbn [contains].
  by destruct (String.prefix sub (String c (a +:+ b))).
Qed.

Lemma string_app_assoc (a b c : string) : (a +:+ b) +:+ c = a +:+ (b +:+ c).
Proof.
  induction a as [|x a IH]; [done|].
  change (String x ((a +:+ b) +:+ c) = String x (a +:+ (b +:+ c))). by f_equal.
Qed.

Lemma string_map_app (f : ascii → ascii) (a b : string) :
  string_map f (a +:+ b) = string_map f a +:+ string_map f b.
Proof.
  induction a as [|x a IH]; [done|].
  change (String (f x) (string_map f (a +:+ b))
          = String (f x) (string_map f a +:+ string_map f b)). by f_equal.
Qed.

Lemma join_last (sep : string) (rs : list string) (x : string) :
  ∃ pre, join sep (rs ++ [x]) = pre +:+ x.
Proof.
  induction rs as [|r rs [pre IH]]; [by exists ""|].
  exists (r +:+ sep +:+ pre). unfold join in *.
  change ((r :: rs) ++ [x]) with (r :: (rs ++ [x])).
  destruct (rs ++ [x]) as [|y l] eqn:E; [by destruct rs|].
  change (String.concat sep (r :: y :: l)) with (r +:+ sep +:+ String.concat sep (y :: l)).
  by rewrite IH, !string_app_assoc.
Qed.

Lemma match_snoc {A B : Type} (rs : list A) (x : A) (a b : B) :
  match rs ++ [x] with [] => a | _ :: _ => b end = b.
Proof. by destruct rs. Qed.

Lemma capitalize_keeps_blocking (pre : string) :
  contains "locking other tasks from starting"
    (capitalize (pre +:+ "blocking other tasks from starting")) = true.
Proof.
  destruct pre as [|c pre]; [by vm_compute|].
  change (String c pre +:+ ?b) with (String c (pre +:+ b)). cbn [capitalize].
  rewrite string_map_app. cbn [contains].
  destruct (String.prefix _ _); [done|].
  apply contains_app_r. by vm_compute.
Qed.

Lemma reason_names_blocking env (task : ScoredTask) (rank : Z) (reason : string) :
  generate_suggestion_reason env task rank = Ok reason →
  contains "Blocks" (s_explanation task) = true →
  contains "locking other tasks from starting" reason = true.
Proof.
  unfold generate_suggestion_reason. intros H Hc. rewrite Hc in H.
  destruct (py_ge_int _ 8) as [important|]; [|done].
  cbn [mbind result_bind] in H.
  destruct (py_le_int _ 2) as [quick|]; [|done].
  cbn [mbind result_bind] in H.
  rewrite match_snoc in H. injection H as <-.
  match goal with
  | |- context [join ", " (?rs ++ [?x])] => destruct (join_last ", " rs x) as [pre ->]
  end.
  do 5 apply contains_app_r. apply contains_app_l.
  apply capitalize_keeps_blocking.
Qed.

Lemma blocks_in_dependency_explanation (task : Task) (all_tasks : list Task) :
  task_dependencies task = [] →
  1 <= count_blocking (id task) all_tasks →
  contains "Blocks" (calculate_dependency_score task all_tasks).2 = true.
Proof.
  intros Hd Hb. unfold calculate_dependency_score. rewrite Hd. cbn [length].
  change (0 <? Z.of_nat 0) with false. cbv iota.
  repeat case_match; try done; lia.
Qed.

Ltac find_in_text :=
  first [ eassumption
        | apply contains_app_r; find_in_text
        | apply contains_app_l; find_in_text ].

Lemma blocks_in_explanation env (task : Task) (all_tasks : list Task)
    (strategy explanation : string) :
  get_score_explanation env task (Some all_tasks) strategy = Ok explanation →
  contains "Blocks" (calculate_dependency_score task all_tasks).2 = true →
  contains "Blocks" explanation = true.
Proof.
  unfold get_score_explanation. rewrite strategy_weights_presets.
  change (default [] (Some all_tasks)) with all_tasks.
  destruct (calculate_urgency_score env task) as [[u ue]|]; [|done].
  destruct (calculate_importance_score env task) as [[i ie]|]; [|done].
  destruct (calculate_effort_score env task) as [[e ee]|]; [|done].
  cbn [mbind result_bind mret result_ret].
  destruct (calculate_dependency_score task all_tasks) as [d de].
  intros H Hc. cbn [snd] in Hc.
  repeat case_decide; injection H as <-; unfold smart_balance;
    cbn [sort_desc insert_desc foldr fold_right w_urgency w_importance w_effort
         w_dependencies snd fltb map join String.concat];
    find_in_text.
Qed.

Lemma analysis_explains_each_task env (tasks : list Task) (strategy : string)
    (r : Analysis) (s : ScoredTask) :
  analyze_tasks env tasks strategy = Ok r → s ∈ a_tasks r →
  ∃ strategy', get_score_explanation env (s_task s) (Some tasks) strategy'
               = Ok (s_explanation s).
Proof.
  unfold analyze_tasks. intros H Hs.
  set (eff := if decide (strategy ∉ dom STRATEGY_WEIGHTS) then _ else _) in H.
  destruct (mapM _ tasks) as [ys|] eqn:Em; [|done].
  injection H as <-. cbn [a_tasks] in Hs. rewrite sort_desc_perm in Hs.
  apply mapM_Forall2 in Em.
  assert (Hall : Forall (fun y => get_score_explanation env (s_task y) (Some tasks) eff
                                  = Ok (s_explanation y)) ys).
  { eapply Forall2_right; [|exact Em]. intros x y Hxy. cbv beta in Hxy.
    unfold score_task in Hxy.
    destruct (calculate_priority_score env x (Some tasks) eff); [|done].
    cbn [mbind result_bind] in Hxy.
    destruct (get_score_explanation env x (Some tasks) eff) as [e|] eqn:Ee; [|done].
    cbn [mbind result_bind mret result_ret] in Hxy. by injection Hxy as <-. }
  exists eff. by apply (proj1 (Forall_forall _ _) Hall).
Qed.

(** X20.  A task with no dependencies of its own on which at least one
    task of the list depends is told so when it is suggested: the
    dependency scorer's text starts with ["Blocks"], the explanation
    carries that text under every strategy, and the reason of the
    suggestion, which looks for that word in the explanation, names the
    blocking (with a capital B when it is the only reason). *)
Theorem blocking_task_is_told_so
    (env : Env) (tasks : list Task) (strategy : string) (count : Z)
    (l : list Suggestion) (s : Suggestion) :
  get_suggestions env tasks strategy count = Ok l →
  s ∈ l →
  task_dependencies (s_task (sg_task s)) = [] →
  1 <= count_blocking (id (s_task (sg_task s))) tasks →
  contains "locking other tasks from starting" (sg_reason s) = true.
Proof.
  unfold get_suggestions. intros H Hs Hd Hb.
  destruct (analyze_tasks env tasks strategy) as [r|] eqn:Er; [|done].
  cbn [mbind result_bind] in H.
  destruct (suggestions_of_top_shape env _ _ _ H) as (Ht & _ & Hf).
  assert (Hin : sg_task s ∈ a_tasks r).
  { assert (Hin : sg_task s ∈ sg_task <$> l) by (by apply list_elem_of_fmap_2).
    rewrite Ht in Hin. unfold slice_to in Hin.
    destruct (0 <=? count); by apply subseteq_take in Hin. }
  destruct (analysis_explains_each_task env tasks strategy r _ Er Hin) as [eff He].
  apply (reason_names_blocking env (sg_task s) (sg_rank s)).
  - by apply (proj1 (Forall_forall _ _) Hf).
  - eapply blocks_in_explanation; [exact He|].
    by apply blocks_in_dependency_explanation.
Qed.

(** * The repository's unit tests, replayed on the model

    Dates are relative to the sample environment's today, 2025-06-15. *)

Example test_due_today :
  calculate_urgency_score ex_env (full_task 1 (PStr "2025-06-15") (PInt 2) (PInt 5) [])
  = Ok (Fin 95, "Due TODAY!").
Proof. reflexivity. Qed.

Example test_overdue :
  calculate_urgency_score ex_env (full_task 1 (PStr "2025-06-12") (PInt 2) (PInt 5) [])
  = Ok (Fin 100, "OVERDUE by 3 day(s)!").
Proof. reflexivity. Qed.

Example test_no_due_date :
  calculate_urgency_score ex_env minimal_task
  = Ok (Fin 50, "No due date set (neutral urgency)").
Proof. reflexivity. Qed.

Example test_max_importance :
  calculate_importance_score ex_env (full_task 1 PNone (PInt 2) (PInt 10) [])
  = Ok (Fin 100, "Importance: Critical (10/10)").
Proof. reflexivity. Qed.

Example test_min_importance :
  calculate_importance_score ex_env (full_task 1 PNone (PInt 2) (PInt 1) [])
  = Ok (Fin 10, "Importance: Low (1/10)").
Proof. reflexivity. Qed.

Example test_default_importance :
  fst <$> calculate_importance_score ex_env minimal_task = Ok (Fin (5 * 10)).
Proof. reflexivity. Qed.

Example test_quick_task :
  calculate_effort_score ex_env (full_task 1 PNone (PInt 1) (PInt 5) [])
  = Ok (Fin 100, "Quick task (1.0h estimated)").
Proof. reflexivity. Qed.

Example test_long_task :
  ∃ s, calculate_effort_score ex_env (full_task 1 PNone (PInt 20) (PInt 5) [])
       = Ok (s, "Major effort (20.0h estimated)") ∧ flt s (Fin 20).
Proof. eexists. split; reflexivity. Qed.

Example test_no_circular_dependencies :
  detect_circular_dependencies
    [ full_task 1 PNone PNone PNone []; full_task 2 PNone PNone PNone [1];
      full_task 3 PNone PNone PNone [2] ] = [].
Proof. reflexivity. Qed.

Example test_simple_circular_dependency :
  detect_circular_dependencies
    [ full_task 1 PNone PNone PNone [2]; full_task 2 PNone PNone PNone [1] ]
  = [[Some 1; Some 2; Some 1]].
Proof. reflexivity. Qed.

Example test_complex_circular_dependency :
  detect_circular_dependencies
    [ full_task 1 PNone PNone PNone [3]; full_task 2 PNone PNone PNone [1];
      full_task 3 PNone PNone PNone [2] ]
  = [[Some 1; Some 3; Some 2; Some 1]].
Proof. reflexivity. Qed.

Example test_self_dependency :
  detect_circular_dependencies [self_dependent_task] = [[Some 1; Some 1]].
Proof. reflexivity. Qed.

Example test_empty_task_list :
  analyze_tasks ex_env [] "smart_balance" = Ok (mkAnalysis [] [] "smart_balance" 0).
Proof. reflexivity. Qed.

Example test_missing_all_optional_fields :
  calculate_priority_score ex_env minimal_task (Some []) "smart_balance"
  = Ok (Fin (5100 # 100)).
Proof. reflexivity. Qed.

Example test_dependency_blocking :
  let a := full_task 1 PNone PNone PNone [2] in
  let b := full_task 2 PNone PNone PNone [] in
  let c := full_task 3 PNone PNone PNone [] in
  map (fun t => (calculate_dependency_score t [a; b; c]).1) [a; b; c]
  = [Fin 20; Fin 60; Fin 40].
Proof. reflexivity. Qed.

(** * Worked instances *)


Lemma analyze_sorted_stable_tiered_witness :
  ∃ r, analyze_tasks ex_env sample_tasks "smart_balance" = Ok r
       ∧ map (fun s => id (s_task s)) (a_tasks r) = [Some 2; Some 3; Some 4; Some 1]
       ∧ StronglySorted (desc s_priority_score) (a_tasks r)
       ∧ Forall tier_ok (a_tasks r).
Proof.
  eexists. split; [vm_compute; reflexivity|]. split; [reflexivity|].
  destruct (analyze_sorted_stable_tiered ex_env sample_tasks "smart_balance" _
              ltac:(vm_compute; reflexivity))
    as (scored & _ & _ & Hsorted & _ & Htier & _).
  split; [exact Hsorted | exact Htier].
Defined.

Lemma scores_within_0_100_witness :
  ∃ s, calculate_priority_score ex_env minimal_task (Some [minimal_task]) "smart_balance"
       = Ok s ∧ in_range 0 100 s.
Proof.
  destruct (scores_within_0_100 ex_env minimal_task [minimal_task]
              (Some [minimal_task]) "smart_balance") as (_ & _ & _ & _ & _ & H).
  apply H; intros z Hz; discriminate Hz.
Defined.

Lemma scores_at_least_10_witness :
  ∃ s, calculate_priority_score ex_env later_and_long (Some sample_tasks) "quick_wins"
       = Ok s ∧ in_range 10 100 s.
Proof.
  destruct (scores_at_least_10 ex_env later_and_long sample_tasks
              (Some sample_tasks) "quick_wins") as (_ & _ & _ & _ & _ & _ & H).
  apply H; intros z Hz; injection Hz as <-; vm_compute; reflexivity.
Defined.

Lemma unknown_strategy_witness :
  analyze_tasks ex_env sample_tasks "fastest_first"
  = analyze_tasks ex_env sample_tasks "smart_balance".
Proof.
  destruct (unknown_strategy_is_smart_balance ex_env "fastest_first" minimal_task
              None sample_tasks) as (_ & _ & H & _); [discriminate..|exact H].
Defined.

Lemma urgency_and_effort_antitone_witness :
  (∃ s1 e1 s2 e2,
     calculate_urgency_score ex_env soon_and_short = Ok (s1, e1)
     ∧ calculate_urgency_score ex_env later_and_long = Ok (s2, e2)
     ∧ fle s2 s1 ∧ fle s1 (Fin 100) ∧ (1 < 0 → s1 = Fin 100))
  ∧ (∃ s1 e1 s2 e2,
       calculate_effort_score ex_env soon_and_short = Ok (s1, e1)
       ∧ calculate_effort_score ex_env later_and_long = Ok (s2, e2)
       ∧ fle s2 s1).
Proof.
  destruct (urgency_and_effort_antitone ex_env soon_and_short later_and_long)
    as [Hu He].
  split.
  - apply (Hu 1 10); [reflexivity | reflexivity | lia].
  - apply (He (NFloat (Fin 1)) (NFloat (Fin 20))); reflexivity.
Defined.

(** * The further properties at sample inputs *)

Lemma reported_cycles_are_cycles_witness :
  simple_cycle (build_graph cyclic_tasks) [Some 1; Some 2; Some 1].
Proof.
  apply (reported_cycles_are_cycles cyclic_tasks).
  assert (E : detect_circular_dependencies cyclic_tasks = [[Some 1; Some 2; Some 1]])
    by (vm_compute; reflexivity).
  rewrite E. apply list_elem_of_here.
Defined.


Lemma task_on_cycle_scores_20_witness :
  (calculate_dependency_score
     (full_task 1 (PStr "2025-06-20") (PInt 3) (PInt 5) [2]) cyclic_tasks).1 = Fin 20.
Proof.
  apply (task_on_cycle_scores_20 cyclic_tasks cyclic_tasks _ 1 [Some 1; Some 2; Some 1]).
  - assert (E : detect_circular_dependencies cyclic_tasks = [[Some 1; Some 2; Some 1]])
      by (vm_compute; reflexivity).
    rewrite E. apply list_elem_of_here.
  - apply list_elem_of_here.
  - apply list_elem_of_here.
  - reflexivity.
  - intros t Ht Hid. apply elem_of_cons in Ht as [->|Ht]; [reflexivity|].
    apply list_elem_of_singleton in Ht. subst t. discriminate Hid.
Defined.

Lemma higher_importance_never_lowers_priority_witness :
  ∃ s1 s2,
    calculate_priority_score ex_env low_importance (Some sample_tasks) "smart_balance"
    = Ok s1
    ∧ calculate_priority_score ex_env high_importance (Some sample_tasks) "smart_balance"
      = Ok s2
    ∧ fle s1 s2.
Proof.
  eexists _, _. split; [vm_compute; reflexivity|]. split; [vm_compute; reflexivity|].
  eapply (higher_importance_never_lowers_priority ex_env low_importance high_importance
            (Some sample_tasks) "smart_balance").
  - repeat split; reflexivity.
  - vm_compute. reflexivity.
  - vm_compute. reflexivity.
  - vm_compute. reflexivity.
  - vm_compute. reflexivity.
  - vm_compute. reflexivity.
Defined.

Lemma earlier_due_date_never_lowers_priority_witness :
  ∃ s1 s2,
    calculate_priority_score ex_env due_tomorrow (Some sample_tasks) "deadline_driven"
    = Ok s1
    ∧ calculate_priority_score ex_env due_next_week (Some sample_tasks) "deadline_driven"
      = Ok s2
    ∧ fle s2 s1.
Proof.
  eexists _, _. split; [vm_compute; reflexivity|]. split; [vm_compute; reflexivity|].
  apply (earlier_due_date_never_lowers_priority ex_env due_tomorrow due_next_week
           (Some sample_tasks) "deadline_driven" 1 7).
  - repeat split; reflexivity.
  - vm_compute. reflexivity.
  - vm_compute. reflexivity.
  - lia.
  - vm_compute. reflexivity.
  - vm_compute. reflexivity.
Defined.

Lemma fewer_hours_never_lower_priority_witness :
  ∃ s1 s2,
    calculate_priority_score ex_env short_job (Some sample_tasks) "quick_wins" = Ok s1
    ∧ calculate_priority_score ex_env long_job (Some sample_tasks) "quick_wins" = Ok s2
    ∧ fle s2 s1.
Proof.
  eexists _, _. split; [vm_compute; reflexivity|]. split; [vm_compute; reflexivity|].
  eapply (fewer_hours_never_lower_priority ex_env short_job long_job
            (Some sample_tasks) "quick_wins").
  - repeat split; reflexivity.
  - vm_compute. reflexivity.
  - vm_compute. reflexivity.
  - vm_compute. reflexivity.
  - vm_compute. reflexivity.
  - vm_compute. reflexivity.
Defined.

Lemma blocking_more_never_lowers_priority_witness :
  ∃ s1 s2,
    calculate_priority_score ex_env short_job (Some [short_job]) "smart_balance" = Ok s1
    ∧ calculate_priority_score ex_env short_job (Some numeric_tasks) "smart_balance"
      = Ok s2
    ∧ fle s1 s2.
Proof.
  eexists _, _. split; [vm_compute; reflexivity|]. split; [vm_compute; reflexivity|].
  apply (blocking_more_never_lowers_priority ex_env short_job [short_job] numeric_tasks
           "smart_balance").
  - reflexivity.
  - vm_compute. lia.
  - vm_compute. reflexivity.
  - vm_compute. reflexivity.
Defined.

Lemma effort_score_bands_witness :
  ∃ s expl, calculate_effort_score ex_env short_job = Ok (s, expl) ∧ in_range 70 80 s.
Proof.
  eexists _, _. split; [vm_compute; reflexivity|].
  destruct (effort_score_bands ex_env short_job (NFloat (Fin 3)) _ _
              ltac:(vm_compute; reflexivity) ltac:(vm_compute; reflexivity))
    as (_ & _ & H & _).
  apply H; vm_compute; reflexivity.
Defined.

Lemma hours_up_to_one_score_100_witness :
  ∃ expl, calculate_effort_score ex_env half_hour_job = Ok (Fin 100, expl).
Proof.
  apply (hours_up_to_one_score_100 ex_env half_hour_job (Fin (1 # 2)));
    vm_compute; reflexivity.
Defined.

Lemma urgency_separates_dates_up_to_34_days_witness :
  ∃ s1 e1 s2 e2,
    calculate_urgency_score ex_env due_tomorrow = Ok (s1, e1)
    ∧ calculate_urgency_score ex_env due_next_week = Ok (s2, e2)
    ∧ flt s2 s1.
Proof.
  eexists _, _, _, _. split; [vm_compute; reflexivity|]. split; [vm_compute; reflexivity|].
  destruct (urgency_separates_dates_up_to_34_days ex_env due_tomorrow due_next_week 1 7
              _ _ _ _
              ltac:(vm_compute; reflexivity) ltac:(vm_compute; reflexivity)
              ltac:(vm_compute; reflexivity) ltac:(vm_compute; reflexivity))
    as (H & _).
  apply H; lia.
Defined.

Lemma explanation_names_factors_by_weight_witness :
  ∃ explanation parts,
    get_score_explanation ex_env minimal_task None "quick_wins" = Ok explanation
    ∧ explanation = join " | " parts
    ∧ Forall2 (fun name part => ∃ rest, part = name +:+ ": " +:+ rest)
        ["Effort"; "Urgency"; "Importance"; "Dependencies"] parts.
Proof.
  destruct (get_score_explanation ex_env minimal_task None "quick_wins")
    as [explanation|] eqn:E; [|vm_compute in E; discriminate E].
  destruct (explanation_names_factors_by_weight ex_env minimal_task None "quick_wins"
              explanation E) as (parts & H1 & H2).
  exists explanation, parts. split; [reflexivity|]. split; [exact H1 | exact H2].
Defined.

Lemma suggestions_are_the_ranked_top_tasks_witness :
  ∃ l, get_suggestions ex_env numeric_tasks "smart_balance" 2 = Ok l
       ∧ Z.of_nat (length l) = 2.
Proof.
  destruct (get_suggestions ex_env numeric_tasks "smart_balance" 2)
    as [l|] eqn:E; [|vm_compute in E; discriminate E].
  destruct (suggestions_are_the_ranked_top_tasks ex_env numeric_tasks "smart_balance" 2
              l E) as (r & _ & _ & _ & _ & H).
  exists l. split; [reflexivity | exact H].
Defined.

Lemma missing_ids_are_positions_witness :
  ∃ task', add_missing_ids request_without_ids !! 1%nat = Some task'
           ∧ id task' = Some 2.
Proof.
  destruct (missing_ids_are_positions request_without_ids) as (_ & _ & H).
  destruct (H 1%nat _ eq_refl) as (task' & H1 & H2 & _).
  exists task'. split; [exact H1 | exact H2].
Defined.

Lemma graph_of_request_without_ids_witness :
  build_graph (add_missing_ids request_without_ids) = [(Some 1, [2]); (Some 2, [])].
Proof.
  apply (graph_of_request_without_ids request_without_ids). repeat constructor.
Defined.

Lemma huge_number_fails_the_whole_analysis_witness :
  (∀ r, analyze_tasks ex_env overflowing_tasks "smart_balance" ≠ Ok r)
  ∧ (∀ count l, get_suggestions ex_env overflowing_tasks "smart_balance" count ≠ Ok l).
Proof.
  apply (huge_number_fails_the_whole_analysis ex_env overflowing_tasks "smart_balance").
  apply Exists_app. right. apply Exists_cons_hd. left.
  exists (2 ^ 1024). split; [reflexivity|]. vm_compute. intros H. discriminate H.
Defined.

Lemma blocking_task_is_told_so_witness :
  ∃ l s, get_suggestions ex_env numeric_tasks "smart_balance" 3 = Ok l
         ∧ s ∈ l
         ∧ id (s_task (sg_task s)) = Some 1
         ∧ contains "locking other tasks from starting" (sg_reason s) = true.
Proof.
  destruct (get_suggestions ex_env numeric_tasks "smart_balance" 3)
    as [l|] eqn:E; [|vm_compute in E; discriminate E].
  destruct l as [|s l]; [vm_compute in E; discriminate E|].
  assert (Hs : sg_task s = sg_task s) by reflexivity.
  assert (Ht : s_task (sg_task s) = full_task 1 (PStr "2025-06-16") (PInt 1) (PInt 9) []).
  { vm_compute in E. injection E as <- _. reflexivity. }
  exists (s :: l), s. split; [reflexivity|]. split; [apply list_elem_of_here|].
  split; [by rewrite Ht|].
  apply (blocking_task_is_told_so ex_env numeric_tasks "smart_balance" 3 (s :: l) s E).
  - apply list_elem_of_here.
  - by rewrite Ht.
  - rewrite Ht. vm_compute. discriminate.
Defined.
